(** * docs_setup.py: the AgentBridge documentation set-up script

    A shallow embedding of [src/docs_setup.py] and the properties of its
    behaviour: the directory scaffolder, the placeholder generator, the
    dependency installer and the interactive build/serve menu.

    The script is effectful throughout.  It is embedded in a small
    state-and-exception monad over a [World] holding the directory tree under
    the working directory, what was written to standard output and the
    subprocesses that were spawned.  What the outside world decides (the exit
    status of a subprocess, what it does to the disk, the interpreter's path
    and its rendering of an exception) is gathered in an [Env] record.

    Scope of the model.  Paths are relative to the working directory, which
    is a directory; there are no symbolic links, permissions or full disks,
    so a system call fails only for the reasons [errno] lists.  An interrupt
    is delivered only while the script waits for a subprocess.  Standard
    input is a finite list of lines, after which [input] meets end of file.
    What the subprocesses themselves print is not part of [stdout]. *)

From Stdlib Require Import String Ascii ZArith List Lia.
From stdpp Require Import base option list strings pretty gmap.
From Equations Require Import Equations.

Local Open Scope string_scope.

(** ** Python string methods used by the script *)

Module PyStr.

Definition is_upper (c : ascii) : bool :=
  let n := nat_of_ascii c in (65 <=? n)%nat && (n <=? 90)%nat.

Definition is_lower (c : ascii) : bool :=
  let n := nat_of_ascii c in (97 <=? n)%nat && (n <=? 122)%nat.

(** A cased character: upper- or lower-case letter.  Strings are byte
    strings here, so only the ASCII letters are cased. *)
Definition is_cased (c : ascii) : bool := is_upper c || is_lower c.

Definition to_upper (c : ascii) : ascii :=
  if is_lower c then ascii_of_nat (nat_of_ascii c - 32) else c.

Definition to_lower (c : ascii) : ascii :=
  if is_upper c then ascii_of_nat (nat_of_ascii c + 32) else c.

(** [s.replace(a, b)] for one-character [a] and [b]. *)
Fixpoint replace (a b : ascii) (s : string) : string :=
  match s with
  | EmptyString => EmptyString
  | String c s' => String (if Ascii.eqb c a then b else c) (replace a b s')
  end.

(** [s.title()]: a cased character is upper-cased when the character before
    it is not cased (or there is none) and lower-cased otherwise. *)
Fixpoint title_from (prev_cased : bool) (s : string) : string :=
  match s with
  | EmptyString => EmptyString
  | String c s' =>
      String (if prev_cased then to_lower c else to_upper c)
             (title_from (is_cased c) s')
  end.

Definition title (s : string) : string := title_from false s.

(** [s.startswith(x)]. *)
Fixpoint startswith (s x : string) {struct x} : bool :=
  match x, s with
  | EmptyString, _ => true
  | String a x', String b s' => Ascii.eqb a b && startswith s' x'
  | String _ _, EmptyString => false
  end.

(** [x in s] for strings. *)
Fixpoint contains (x s : string) : bool :=
  startswith s x ||
  match s with
  | EmptyString => false
  | String _ s' => contains x s'
  end.

(** [sep.join(l)]. *)
Fixpoint join (sep : string) (l : list string) : string :=
  match l with
  | [] => ""
  | [x] => x
  | x :: l' => x ++ sep ++ join sep l'
  end.

End PyStr.

(** ** pathlib: pure paths *)

(** A relative path is the list of its components, outermost first; the empty
    list is the working directory, [Path(".")]. *)
Abbreviation path := (list string).

Module PurePath.

(** Splits at every ['/']; [acc] is the component read so far. *)
Fixpoint split_slash (acc : string) (s : string) : list string :=
  match s with
  | EmptyString => [acc]
  | String c s' =>
      if Ascii.eqb c "/" then acc :: split_slash "" s'
      else split_slash (acc ++ String c "") s'
  end.

(** [Path(s)] for a relative [s]: empty components and ["."] are dropped. *)
Definition Path (s : string) : path :=
  filter (λ c, c ≠ "" ∧ c ≠ ".") (split_slash "" s).

(** [str(p)]. *)
Definition str (p : path) : string :=
  match p with
  | [] => "."
  | _ => PyStr.join "/" p
  end.

(** [p.parent]; the working directory is its own parent. *)
Definition parent (p : path) : path := removelast p.

(** [p.name]: the last component, empty for the working directory. *)
Definition name (p : path) : string := List.last p "".

(** Position of the last ['.'] of [s], if any. *)
Fixpoint rfind_dot (s : string) : option nat :=
  match s with
  | EmptyString => None
  | String c s' =>
      match rfind_dot s' with
      | Some i => Some (S i)
      | None => if Ascii.eqb c "." then Some 0%nat else None
      end
  end.

(** [p.stem]: the name without its last suffix.  As in pathlib, a dot in
    first or in last position does not start a suffix. *)
Definition stem (p : path) : string :=
  let n := name p in
  match rfind_dot n with
  | Some i =>
      if (0 <? i)%nat && (i <? String.length n - 1)%nat
      then String.substring 0 i n else n
  | None => n
  end.

End PurePath.

Import PurePath.


(** ** The directory tree and the system calls *)

(** The disk below the working directory: a file with its content, or a
    directory with its entries. *)
#[warnings="-register-all"] Inductive node :=
  | File (content : string)
  | Dir (entries : gmap string node).

(** What [stat] and a read show of a node. *)
Inductive st :=
  | IsFile (content : string)
  | IsDir.

Inductive errno := ENOENT | ENOTDIR | EEXIST | EISDIR.

Module FS.

Definition kind (n : node) : st :=
  match n with
  | File c => IsFile c
  | Dir _ => IsDir
  end.

(** Path resolution from the working directory [n]. *)
Fixpoint stat (n : node) (p : path) : option st :=
  match p with
  | [] => Some (kind n)
  | c :: p' =>
      match n with
      | File _ => None
      | Dir m =>
          match m !! c with
          | Some n' => stat n' p'
          | None => None
          end
      end
  end.

(** [Path.exists()] and [Path.is_dir()]: every resolution error reads as
    [False]. *)
Definition exists_ (n : node) (p : path) : bool :=
  match stat n p with
  | Some _ => true
  | None => false
  end.

Definition is_dir (n : node) (p : path) : bool :=
  match stat n p with
  | Some IsDir => true
  | _ => false
  end.

(** [os.mkdir(p)]: the parent has to be a directory and [p] must not exist;
    the new directory is empty. *)
Fixpoint os_mkdir (n : node) (p : path) : errno + node :=
  match p with
  | [] => inl EEXIST
  | c :: p' =>
      match n with
      | File _ => inl ENOTDIR
      | Dir m =>
          match p', m !! c with
          | [], Some _ => inl EEXIST
          | [], None => inr (Dir (<[c := Dir ∅]> m))
          | _ :: _, None => inl ENOENT
          | _ :: _, Some n' =>
              match os_mkdir n' p' with
              | inr n'' => inr (Dir (<[c := n'']> m))
              | inl e => inl e
              end
          end
      end
  end.

(** [open(p, "w").write(content)]: creates the file or truncates it; the
    parent has to be a directory and [p] must not be one. *)
Fixpoint os_write (n : node) (p : path) (content : string) : errno + node :=
  match p with
  | [] => inl EISDIR
  | c :: p' =>
      match n with
      | File _ => inl ENOTDIR
      | Dir m =>
          match p', m !! c with
          | [], Some (Dir _) => inl EISDIR
          | [], _ => inr (Dir (<[c := File content]> m))
          | _ :: _, None => inl ENOENT
          | _ :: _, Some n' =>
              match os_write n' p' content with
              | inr n'' => inr (Dir (<[c := n'']> m))
              | inl e => inl e
              end
          end
      end
  end.

(** [Path.mkdir(parents=False, exist_ok=exist_ok)]. *)
Definition mkdir_noparents (exist_ok : bool) (n : node) (p : path)
  : errno + node :=
  match os_mkdir n p with
  | inr n' => inr n'
  | inl ENOENT => inl ENOENT
  | inl e => if exist_ok && is_dir n p then inr n else inl e
  end.

(** [Path.mkdir(parents=True, exist_ok=exist_ok)]: on [FileNotFoundError]
    the parent is made first, with [parents=True, exist_ok=True], and the
    directory itself is then made without [parents]. *)
Equations? mkdir_parents (exist_ok : bool) (p : path) (n : node)
  : errno + node by wf (length p) lt :=
  mkdir_parents exist_ok p n with os_mkdir n p := {
    | inr n' => inr n'
    | inl ENOENT with p := {
        | [] => inl ENOENT
        | c :: p' with mkdir_parents true (parent (c :: p')) n := {
            | inr n1 => mkdir_noparents exist_ok n1 (c :: p')
            | inl e => inl e } }
    | inl e => if exist_ok && is_dir n p then inr n else inl e }.
Proof.
  unfold parent. clear. revert c.
  induction p' as [|d p' IH]; intros c; simpl in *; [lia|].
  specialize (IH d). lia.
Qed.

Definition mkdir (parents exist_ok : bool) (n : node) (p : path)
  : errno + node :=
  if parents then mkdir_parents exist_ok p n
  else mkdir_noparents exist_ok n p.

(** [grows n n']: whatever resolves in [n] resolves in [n'] to the same
    kind of node, with the same content when it is a file. *)
Definition grows (n n' : node) : Prop :=
  ∀ q x, stat n q = Some x → stat n' q = Some x.

(** [adds_dirs n n']: [n'] is [n] with some directories added where
    nothing was. *)
Definition adds_dirs (n n' : node) : Prop :=
  ∀ q, stat n' q = stat n q ∨ (stat n q = None ∧ stat n' q = Some IsDir).

End FS.


(** ** The world the script runs in *)

Inductive exn :=
  | OSError (e : errno)
  | CalledProcessError (cmd : list string) (returncode : Z)
  | SystemExit (code : Z)
  | KeyboardInterrupt
  | EOFError.

(** How a call of [subprocess.run] ends: the child exits with a return code,
    an interrupt arrives while the script waits for it, or the child could
    not be started. *)
Inductive proc_status :=
  | Exited (returncode : Z)
  | Interrupted
  | NotStarted (e : errno).

(** What the script does not decide.  [run_process k cmd n] is the fate of
    the [k]-th subprocess, started with command line [cmd] on disk [n], and
    the disk it leaves; [str_CalledProcessError] is the interpreter's
    rendering of that exception in an f-string. *)
Record Env := mkEnv {
  sys_executable : string;
  run_process : nat → list string → node → proc_status * node;
  str_CalledProcessError : list string → Z → string
}.

(** The state the script acts on: the disk, the chunks it wrote to standard
    output (oldest first) and the command lines of the subprocesses it
    started (oldest first). *)
Record World := mkWorld {
  fs : node;
  stdout : list string;
  spawned : list (list string)
}.

Inductive Outcome (A : Type) :=
  | Ret (a : A)
  | Raise (e : exn).
Arguments Ret {A} a.
Arguments Raise {A} e.

(** Computations: state passing, with exceptions that keep the state. *)
Definition M (A : Type) : Type := World → Outcome A * World.

#[global] Instance M_ret : MRet M := λ A a w, (Ret a, w).
#[global] Instance M_bind : MBind M := λ A B f m w,
  match m w with
  | (Ret a, w') => f a w'
  | (Raise e, w') => (Raise e, w')
  end.

Definition nl : string := String (ascii_of_nat 10) "".

Module Py.

Definition raise {A} (e : exn) : M A := λ w, (Raise e, w).

(** [try: body except ...: handler]; [handler e] is [None] when no clause
    matches [e]. *)
Definition try_except {A} (body : M A) (handler : exn → option (M A)) : M A :=
  λ w,
    match body w with
    | (Ret a, w') => (Ret a, w')
    | (Raise e, w') =>
        match handler e with
        | Some h => h w'
        | None => (Raise e, w')
        end
    end.

(** [for x in l: body x]. *)
Fixpoint for_each {A} (l : list A) (body : A → M unit) : M unit :=
  match l with
  | [] => mret tt
  | x :: l' => body x ;; for_each l' body
  end.

Definition write (s : string) : M unit :=
  λ w, (Ret tt, mkWorld (fs w) (stdout w ++ [s]) (spawned w)).

(** [print(s)]. *)
Definition print (s : string) : M unit := write (s ++ nl).

Definition sys_exit {A} (code : Z) : M A := raise (SystemExit code).

Definition path_exists (p : path) : M bool :=
  λ w, (Ret (FS.exists_ (fs w) p), w).

Definition lift_fs (op : node → errno + node) : M unit :=
  λ w,
    match op (fs w) with
    | inr n' => (Ret tt, mkWorld n' (stdout w) (spawned w))
    | inl e => (Raise (OSError e), w)
    end.

Definition path_mkdir (parents exist_ok : bool) (p : path) : M unit :=
  lift_fs (λ n, FS.mkdir parents exist_ok n p).

Definition path_write_text (p : path) (content : string) : M unit :=
  lift_fs (λ n, FS.os_write n p content).

(** [subprocess.run(cmd, check=True)]. *)
Definition subprocess_run (E : Env) (cmd : list string) : M unit :=
  λ w,
    match run_process E (length (spawned w)) cmd (fs w) with
    | (NotStarted e, _) => (Raise (OSError e), w)
    | (status, n') =>
        let w' := mkWorld n' (stdout w) (spawned w ++ [cmd]) in
        match status with
        | Exited 0 => (Ret tt, w')
        | Exited rc => (Raise (CalledProcessError cmd rc), w')
        | _ => (Raise KeyboardInterrupt, w')
        end
    end.

(** The exit status of the interpreter running [main()] as the script's
    last statement: 0 on return, the code of [sys.exit], 1 on any other
    uncaught exception; on an uncaught [KeyboardInterrupt] the interpreter
    ends itself with SIGINT, which a shell reports as 130. *)
Definition exit_status (o : Outcome unit) : Z :=
  match o with
  | Ret _ => 0
  | Raise (SystemExit code) => code
  | Raise KeyboardInterrupt => 130
  | Raise _ => 1
  end.

End Py.

(** ** The script *)

Section Script.

Context (E : Env).

Definition DOCS_DIRS : list string :=
  [ "docs/assets";
    "docs/getting-started";
    "docs/core";
    "docs/web/react";
    "docs/web/angular";
    "docs/mobile/react-native";
    "docs/mobile/flutter";
    "docs/advanced";
    "docs/development" ].

(** The body of the loop over [DOCS_DIRS]. *)
Definition create_directory (directory : string) : M unit :=
  Py.path_mkdir true true (Path directory) ;;
  Py.print ("Created directory: " ++ directory).

Definition create_directories : M unit :=
  Py.for_each DOCS_DIRS create_directory.

Definition pip_install : list string :=
  [ sys_executable E; "-m"; "pip"; "install"; "mkdocs"; "mkdocs-material";
    "pymdown-extensions"; "mkdocs-git-revision-date-localized-plugin" ].

Definition install_dependencies : M unit :=
  Py.try_except
    (Py.subprocess_run E pip_install ;;
     Py.print "Successfully installed MkDocs and required plugins.")
    (λ e, match e with
          | CalledProcessError cmd rc => Some (
              Py.print ("Error installing dependencies: "
                        ++ str_CalledProcessError E cmd rc) ;;
              Py.sys_exit 1)
          | _ => None
          end).

Definition arch_diagram_path : path :=
  Path "docs/assets/agentbridge-architecture.png".

Definition expected_files : list string :=
  [ "docs/index.md";
    "docs/getting-started/installation.md";
    "docs/getting-started/quick-start.md";
    "docs/core/overview.md";
    "docs/core/api-reference.md";
    "docs/core/function-registry.md";
    "docs/core/type-system.md";
    "docs/web/react/overview.md";
    "docs/web/react/components.md";
    "docs/web/react/hooks.md";
    "docs/web/angular/overview.md";
    "docs/web/angular/components.md";
    "docs/web/angular/services.md";
    "docs/mobile/react-native/overview.md";
    "docs/mobile/react-native/components.md";
    "docs/mobile/flutter/overview.md";
    "docs/mobile/flutter/components.md";
    "docs/advanced/authentication.md";
    "docs/advanced/error-handling.md";
    "docs/advanced/custom-adapters.md";
    "docs/development/contributing.md";
    "docs/development/architecture.md" ].

(** The f-string of the placeholder document. *)
Definition placeholder (title parent : string) : string :=
  "# " ++ title ++ nl
  ++ nl
  ++ "This page is under construction. It will contain documentation about "
  ++ title ++ " in the " ++ parent ++ " section." ++ nl
  ++ nl
  ++ "## Coming Soon" ++ nl
  ++ nl
  ++ "Check back soon for detailed documentation on this topic." ++ nl.

Definition placeholder_title (p : path) : string :=
  PyStr.title (PyStr.replace "-" " " (stem p)).

Definition placeholder_parent (p : path) : string :=
  PyStr.title (PyStr.replace "-" " " (name (parent p))).

(** The body of the loop over [expected_files]. *)
Definition create_placeholder (file_path : string) : M unit :=
  let path := Path file_path in
  present ← Py.path_exists path ;
  if negb present then
    let title := placeholder_title path in
    let parent := placeholder_parent path in
    let content := placeholder title parent in
    Py.path_write_text path content ;;
    Py.print ("Created placeholder file: " ++ file_path)
  else mret tt.

Definition create_placeholder_files : M unit :=
  present ← Py.path_exists arch_diagram_path ;
  (if negb present then
     Py.print ("Note: Please create an architecture diagram at "
               ++ str arch_diagram_path)
   else mret tt) ;;
  Py.for_each expected_files create_placeholder.

Definition mkdocs_build : list string := ["mkdocs"; "build"].
Definition mkdocs_serve : list string := ["mkdocs"; "serve"].

Definition build_documentation : M unit :=
  Py.try_except
    (Py.subprocess_run E mkdocs_build ;;
     Py.print "Documentation built successfully. You can find the output in the 'site' directory.")
    (λ e, match e with
          | CalledProcessError cmd rc => Some (
              Py.print ("Error building documentation: "
                        ++ str_CalledProcessError E cmd rc) ;;
              Py.sys_exit 1)
          | _ => None
          end).

Definition serve_documentation : M unit :=
  Py.try_except
    (Py.print "Serving documentation at http://127.0.0.1:8000/" ;;
     Py.print "Press Ctrl+C to stop the server." ;;
     Py.subprocess_run E mkdocs_serve)
    (λ e, match e with
          | CalledProcessError cmd rc => Some (
              Py.print ("Error serving documentation: "
                        ++ str_CalledProcessError E cmd rc) ;;
              Py.sys_exit 1)
          | KeyboardInterrupt => Some (Py.print (nl ++ "Server stopped."))
          | _ => None
          end).

(** The menu text and the prompt that [input] writes. *)
Definition menu_text : M unit :=
  Py.print (nl ++ "What would you like to do next?") ;;
  Py.print "1. Build documentation" ;;
  Py.print "2. Serve documentation locally" ;;
  Py.print "3. Exit" ;;
  Py.write "Enter your choice (1-3): ".

(** The [while True] loop of [main].  [lines] is what remains to be read
    from standard input, one entry per line; [input] raises [EOFError]
    when it is exhausted. *)
Fixpoint menu_loop (lines : list string) : M unit :=
  menu_text ;;
  match lines with
  | [] => Py.raise EOFError
  | choice :: rest =>
      if String.eqb choice "1" then
        build_documentation ;; menu_loop rest
      else if String.eqb choice "2" then
        serve_documentation ;; menu_loop rest
      else if String.eqb choice "3" then
        Py.print "Exiting..."
      else
        Py.print "Invalid choice. Please try again." ;; menu_loop rest
  end.

(** The first statements of [main]: the banner and the check that
    [mkdocs.yml] is there. *)
Definition require_config : M unit :=
  Py.print "Setting up AgentBridge documentation..." ;;
  present ← Py.path_exists (Path "mkdocs.yml") ;
  if negb present then
    Py.print "Error: mkdocs.yml not found. Please create it first." ;;
    Py.sys_exit 1
  else mret tt.

(** [main] up to the menu. *)
Definition main_setup : M unit :=
  require_config ;;
  create_directories ;;
  install_dependencies ;;
  create_placeholder_files.

Definition main (lines : list string) : M unit :=
  main_setup ;; menu_loop lines.

End Script.


(** ** What the script writes to standard output *)

(** The line [create_directories] prints for a directory. *)
Definition dir_report (directory : string) : string :=
  ("Created directory: " ++ directory) ++ nl.

(** The document written for an expected file. *)
Definition placeholder_of (file_path : string) : string :=
  placeholder (placeholder_title (Path file_path))
              (placeholder_parent (Path file_path)).

(** The line [create_placeholder_files] prints for a file it wrote. *)
Definition file_report (file_path : string) : string :=
  ("Created placeholder file: " ++ file_path) ++ nl.

Definition arch_note : string :=
  ("Note: Please create an architecture diagram at "
   ++ str arch_diagram_path) ++ nl.

Definition banner : string :=
  "Setting up AgentBridge documentation..." ++ nl.

Definition config_error : string :=
  "Error: mkdocs.yml not found. Please create it first." ++ nl.

Definition install_error (E : Env) (rc : Z) : string :=
  ("Error installing dependencies: "
   ++ str_CalledProcessError E (pip_install E) rc) ++ nl.

Definition build_error (E : Env) (rc : Z) : string :=
  ("Error building documentation: "
   ++ str_CalledProcessError E mkdocs_build rc) ++ nl.

Definition serve_error (E : Env) (rc : Z) : string :=
  ("Error serving documentation: "
   ++ str_CalledProcessError E mkdocs_serve rc) ++ nl.

Definition serve_banner : list string :=
  [ "Serving documentation at http://127.0.0.1:8000/" ++ nl;
    "Press Ctrl+C to stop the server." ++ nl ].

Definition menu_chunks : list string :=
  [ (nl ++ "What would you like to do next?") ++ nl;
    "1. Build documentation" ++ nl;
    "2. Serve documentation locally" ++ nl;
    "3. Exit" ++ nl;
    "Enter your choice (1-3): " ].

(** The world once the menu is shown and the prompt written. *)
Definition prompted (w : World) : World :=
  mkWorld (fs w) (stdout w ++ menu_chunks) (spawned w).

(** The state in which the menu is shown again once the lines [pre] have
    been read and handled, one round of the [while True] loop of [main]
    each; [None] when the loop was left on the way, by [break] or by an
    exception. *)
Fixpoint menu_rounds (E : Env) (pre : list string) (w : World) : option World :=
  match pre with
  | [] => Some w
  | choice :: pre' =>
      if String.eqb choice "1" then
        match build_documentation E (prompted w) with
        | (Ret _, w1) => menu_rounds E pre' w1
        | (Raise _, _) => None
        end
      else if String.eqb choice "2" then
        match serve_documentation E (prompted w) with
        | (Ret _, w1) => menu_rounds E pre' w1
        | (Raise _, _) => None
        end
      else if String.eqb choice "3" then None
      else
        menu_rounds E pre'
          (Py.print "Invalid choice. Please try again." (prompted w)).2
  end.

(** [appends m]: whatever [m] does, it leaves what was written before it
    in place. *)
Definition appends {A} (m : M A) : Prop :=
  ∀ w, stdout w `prefix_of` stdout (m w).2.

(** ** Example disks and environments *)

(** A project that has its [mkdocs.yml] and nothing else. *)
Definition disk_fresh : node :=
  Dir {[ "mkdocs.yml" := File "site_name: AgentBridge" ]}.

(** A project whose home page was written by hand already. *)
Definition disk_edited : node :=
  Dir (<["docs" := Dir {[ "index.md" := File "# Welcome" ]}]>
       {[ "mkdocs.yml" := File "site_name: AgentBridge" ]}).


(** A project without [mkdocs.yml]. *)
Definition disk_unconfigured : node := Dir ∅.

Definition world_of (n : node) : World := mkWorld n [] [].

(** Python's rendering of [CalledProcessError] for a positive return code. *)
Definition render_CalledProcessError (cmd : list string) (rc : Z) : string :=
  "Command '[" ++ PyStr.join ", " ((λ a, "'" ++ a ++ "'") <$> cmd)
  ++ "]' returned non-zero exit status " ++ pretty rc ++ ".".

(** An environment in which the [k]-th subprocess meets [fate k] and no
    subprocess touches the disk. *)
Definition env_of (fate : nat → proc_status) : Env :=
  mkEnv "/usr/bin/python3" (λ k _ n, (fate k, n)) render_CalledProcessError.

Definition all_well : nat → proc_status := λ _, Exited 0.

(** Subprocess [k] meets [s], the others exit with 0. *)
Definition but_at (k : nat) (s : proc_status) : nat → proc_status :=
  λ i, if decide (i = k) then s else Exited 0.

(** ** Notions for the further properties *)

(** No regular file stands at [p] or above it. *)
Definition way_clear (n : node) (p : path) : Prop :=
  ∀ q content, q `prefix_of` p → FS.stat n q ≠ Some (IsFile content).

(** A project in which [docs/core] is a regular file. *)
Definition disk_core_is_file : node :=
  Dir (<["docs" := Dir {[ "core" := File "core notes" ]}]>
       {[ "mkdocs.yml" := File "site_name: AgentBridge" ]}).

Definition install_done : string :=
  "Successfully installed MkDocs and required plugins." ++ nl.

Definition build_done : string :=
  "Documentation built successfully. You can find the output in the 'site' directory."
  ++ nl.

(** The exceptions that can leave [main]: [sys.exit] only with code 1, and
    never a [CalledProcessError]. *)
Definition may_escape (e : exn) : Prop :=
  match e with
  | SystemExit code => code = 1%Z
  | CalledProcessError _ _ => False
  | _ => True
  end.

(** [tame m]: every exception [m] raises may escape. *)
Definition tame {A} (m : M A) : Prop :=
  ∀ w e, (m w).1 = Raise e → may_escape e.

(** The command lines the script starts. *)
Definition known_command (E : Env) (cmd : list string) : Prop :=
  cmd = pip_install E ∨ cmd = mkdocs_build ∨ cmd = mkdocs_serve.

(** [starts E k m]: [m] starts at most [k] subprocesses, all of them known
    commands. *)
Definition starts {A} (E : Env) (k : nat) (m : M A) : Prop :=
  ∀ w, ∃ cmds, spawned (m w).2 = (spawned w ++ cmds)%list ∧
               (length cmds ≤ k)%nat ∧ Forall (known_command E) cmds.

(** * Properties *)

(** ** The directory tree *)

Module FSFacts.
Import FS.

Lemma grows_refl n : grows n n.
Proof. intros q x Hq. exact Hq. Qed.

Lemma grows_trans n1 n2 n3 : grows n1 n2 → grows n2 n3 → grows n1 n3.
Proof. intros H12 H23 q x Hq. apply H23, H12, Hq. Qed.

Lemma is_dir_stat n p : is_dir n p = true ↔ stat n p = Some IsDir.
Proof.
  unfold is_dir. destruct (stat n p) as [[c|]|]; split; congruence.
Qed.

Lemma exists_stat n p : exists_ n p = false ↔ stat n p = None.
Proof. unfold exists_. destruct (stat n p); split; congruence. Qed.

Lemma grows_is_dir n n' p : grows n n' → is_dir n p = true → is_dir n' p = true.
Proof. rewrite !is_dir_stat. intros Hg Hp. apply Hg, Hp. Qed.

(** Everything above a path that resolves is a directory. *)
Lemma stat_above n q c r x :
  stat n (q ++ c :: r)%list = Some x → stat n q = Some IsDir.
Proof.
  revert n. induction q as [|d q IH]; intros n; simpl.
  - destruct n as [s|m]; [discriminate|reflexivity].
  - destruct n as [s|m]; [discriminate|].
    destruct (m !! d) as [n1|]; [apply IH|discriminate].
Qed.

Lemma is_dir_prefix n q p :
  q `prefix_of` p → is_dir n p = true → is_dir n q = true.
Proof.
  intros [k ->]. rewrite !is_dir_stat. destruct k as [|c r].
  - rewrite app_nil_r. tauto.
  - apply stat_above.
Qed.

Lemma parent_snoc p : p ≠ [] → p = (parent p ++ [name p])%list.
Proof. intros Hp. apply app_removelast_last, Hp. Qed.

Lemma parent_prefix p : parent p `prefix_of` p.
Proof.
  destruct p as [|c p].
  - exists []. reflexivity.
  - exists [name (c :: p)]. apply parent_snoc. discriminate.
Qed.

(** *** [os.mkdir] *)

Lemma os_mkdir_stat n p n' :
  os_mkdir n p = inr n' →
  stat n p = None ∧
  ∀ q, stat n' q = if decide (q = p) then Some IsDir else stat n q.
Proof.
  revert n n'. induction p as [|c p IH]; intros n n'; simpl; [discriminate|].
  destruct n as [s|m]; [discriminate|].
  destruct p as [|d p].
  - destruct (m !! c) as [n1|] eqn:Hc; [discriminate|].
    intros [= <-]. split; [reflexivity|].
    intros [|e q]; [by case_decide|]. simpl.
    destruct (decide (e = c)) as [->|Hne].
    + rewrite lookup_insert_eq, Hc.
      destruct q as [|f q]; simpl; [by case_decide|].
      rewrite lookup_empty. by case_decide.
    + rewrite lookup_insert_ne by congruence.
      case_decide; congruence.
  - destruct (m !! c) as [n1|] eqn:Hc; [|discriminate].
    destruct (os_mkdir n1 (d :: p)) as [e|n2] eqn:Hrec; [discriminate|].
    intros [= <-]. destruct (IH _ _ Hrec) as [Hnone Hq].
    split; [exact Hnone|].
    intros [|e q]; [by case_decide|]. simpl.
    destruct (decide (e = c)) as [->|Hne].
    + rewrite lookup_insert_eq, Hc, Hq.
      repeat case_decide; congruence.
    + rewrite lookup_insert_ne by congruence.
      case_decide; congruence.
Qed.

Lemma os_mkdir_exists n p x : stat n p = Some x → os_mkdir n p = inl EEXIST.
Proof.
  revert n. induction p as [|c p IH]; intros n; simpl; [reflexivity|].
  destruct n as [s|m]; [discriminate|].
  destruct (m !! c) as [n1|]; [|discriminate].
  destruct p as [|d p]; [reflexivity|].
  intros Hs. rewrite (IH _ Hs). reflexivity.
Qed.

(** *** Writing a file *)

Lemma os_write_stat n p content n' :
  os_write n p content = inr n' →
  ∀ q, stat n' q = if decide (q = p) then Some (IsFile content) else stat n q.
Proof.
  revert n n'. induction p as [|c p IH]; intros n n'; simpl; [discriminate|].
  destruct n as [s|m]; [discriminate|].
  destruct p as [|d p].
  - intros Hw.
    assert (n' = Dir (<[c := File content]> m) ∧
            ∀ e q, stat (Dir m) (c :: e :: q) = None) as [-> Hbelow].
    { destruct (m !! c) as [[s|m1]|] eqn:Hc; [| discriminate |];
        injection Hw as <-; (split; [reflexivity|]);
        intros e q; simpl; rewrite Hc; reflexivity. }
    intros [|e q]; [by case_decide|].
    destruct (decide (e = c)) as [->|Hne].
    + destruct q as [|f q].
      * simpl. rewrite lookup_insert_eq. by case_decide.
      * rewrite Hbelow. simpl. rewrite lookup_insert_eq. by case_decide.
    + simpl. rewrite lookup_insert_ne by congruence.
      case_decide; congruence.
  - destruct (m !! c) as [n1|] eqn:Hc; [|discriminate].
    destruct (os_write n1 (d :: p) content) as [e|n2] eqn:Hrec; [discriminate|].
    intros [= <-]. pose proof (IH _ _ Hrec) as Hq.
    intros [|e q]; [by case_decide|]. simpl.
    destruct (decide (e = c)) as [->|Hne].
    + rewrite lookup_insert_eq, Hc, Hq.
      repeat case_decide; congruence.
    + rewrite lookup_insert_ne by congruence.
      case_decide; congruence.
Qed.

(** A write succeeds at a path that does not resolve and whose parent is a
    directory. *)
Lemma os_write_ok n p content :
  stat n (parent p) = Some IsDir → stat n p = None →
  ∃ n', os_write n p content = inr n'.
Proof.
  revert n. induction p as [|c p IH]; intros n; [discriminate|].
  destruct p as [|d p].
  - simpl. destruct n as [s|m]; [discriminate|].
    destruct (m !! c) as [n1|]; [destruct n1; discriminate|]. eauto.
  - change (parent (c :: d :: p)) with (c :: parent (d :: p)).
    simpl. destruct n as [s|m]; [discriminate|].
    destruct (m !! c) as [n1|]; [|discriminate].
    intros Hd Hnone. destruct (IH n1 Hd Hnone) as [n2 Hn2].
    simpl in Hn2. rewrite Hn2. eauto.
Qed.

Lemma os_write_grows n p content n' :
  stat n p = None → os_write n p content = inr n' → grows n n'.
Proof.
  intros Hnone Hw q x Hq. rewrite (os_write_stat _ _ _ _ Hw).
  destruct (decide (q = p)) as [->|]; congruence.
Qed.


(** *** Making directories *)

Lemma adds_dirs_refl n : adds_dirs n n.
Proof. intros q. by left. Qed.

Lemma adds_dirs_trans n1 n2 n3 :
  adds_dirs n1 n2 → adds_dirs n2 n3 → adds_dirs n1 n3.
Proof.
  intros H12 H23 q.
  destruct (H12 q) as [E12|[E1 E2]], (H23 q) as [E23|[E2' E3]].
  - left. congruence.
  - right. split; congruence.
  - right. split; congruence.
  - congruence.
Qed.

Lemma adds_dirs_grows n n' : adds_dirs n n' → grows n n'.
Proof. intros Ha q x Hq. destruct (Ha q) as [->|[? _]]; congruence. Qed.

Lemma os_mkdir_adds n p n' : os_mkdir n p = inr n' → adds_dirs n n'.
Proof.
  intros Hm q. destruct (os_mkdir_stat _ _ _ Hm) as [Hnone Hq].
  rewrite Hq. case_decide; subst; eauto.
Qed.

Lemma os_mkdir_is_dir n p n' : os_mkdir n p = inr n' → stat n' p = Some IsDir.
Proof.
  intros Hm. destruct (os_mkdir_stat _ _ _ Hm) as [_ ->]. by case_decide.
Qed.

Lemma mkdir_noparents_spec exist_ok n p n' :
  mkdir_noparents exist_ok n p = inr n' →
  stat n' p = Some IsDir ∧ adds_dirs n n'.
Proof.
  unfold mkdir_noparents.
  destruct (os_mkdir n p) as [e|n1] eqn:Hm.
  - destruct e; try discriminate;
      (destruct (exist_ok && is_dir n p) eqn:Hd; [|discriminate]);
      apply andb_true_iff in Hd as [_ Hd%is_dir_stat];
      intros [= <-]; eauto using adds_dirs_refl.
  - intros [= <-]. eauto using os_mkdir_is_dir, os_mkdir_adds.
Qed.

Lemma mkdir_parents_spec exist_ok p n n' :
  mkdir_parents exist_ok p n = inr n' →
  stat n' p = Some IsDir ∧ adds_dirs n n'.
Proof.
  funelim (mkdir_parents exist_ok p n); try discriminate.
  1-3: destruct (exist_ok && is_dir n p) eqn:Hd; [|discriminate];
       apply andb_true_iff in Hd as [_ Hd%is_dir_stat];
       intros [= <-]; eauto using adds_dirs_refl.
  - intros [= <-]. eauto using os_mkdir_is_dir, os_mkdir_adds.
  - intros [Hp Ha]%mkdir_noparents_spec. split; [exact Hp|].
    eapply adds_dirs_trans; [|exact Ha].
    match goal with
    | IH : ∀ n', _ = inr n' → _ ∧ adds_dirs n n',
      Hrec : mkdir_parents true _ n = inr ?n1 |- _ =>
        apply (IH n1 Hrec)
    end.
Qed.


End FSFacts.

(** ** Running the monad *)

Lemma bind_run {A B} (m : M A) (f : A → M B) w :
  (m ≫= f) w =
  match m w with
  | (Ret a, w') => f a w'
  | (Raise e, w') => (Raise e, w')
  end.
Proof. reflexivity. Qed.

Lemma for_each_cons {A} (x : A) l body w :
  Py.for_each (x :: l) body w =
  match body x w with
  | (Ret _, w') => Py.for_each l body w'
  | (Raise e, w') => (Raise e, w')
  end.
Proof. reflexivity. Qed.

Lemma print_run s w :
  Py.print s w = (Ret tt, mkWorld (fs w) (stdout w ++ [s ++ nl]) (spawned w)).
Proof. reflexivity. Qed.

Lemma print_then {A} s (k : M A) w :
  (Py.print s ;; k) w =
  k (mkWorld (fs w) (stdout w ++ [s ++ nl]) (spawned w)).
Proof. reflexivity. Qed.

(** ** The directory scaffolder *)

Section Scaffolder.
Import FS FSFacts.

Lemma create_directory_run d w :
  create_directory d w =
  match mkdir_parents true (Path d) (fs w) with
  | inr n' => (Ret tt, mkWorld n' (stdout w ++ [dir_report d]) (spawned w))
  | inl e => (Raise (OSError e), w)
  end.
Proof.
  unfold create_directory. rewrite bind_run.
  unfold Py.path_mkdir, Py.lift_fs, mkdir.
  destruct (mkdir_parents true (Path d) (fs w)); reflexivity.
Qed.

(** One run of the loop, over any list of directories. *)
Lemma create_dirs_run l w r w' :
  Py.for_each l create_directory w = (r, w') →
  adds_dirs (fs w) (fs w') ∧ spawned w' = spawned w ∧
  (r = Ret tt →
     (∀ d, d ∈ l → stat (fs w') (Path d) = Some IsDir) ∧
     stdout w' = (stdout w ++ (dir_report <$> l))%list).
Proof.
  revert w. induction l as [|d l IH]; intros w.
  - intros [= <- <-]. split; [apply adds_dirs_refl|].
    split; [reflexivity|]. intros _. split.
    + intros d Hd. inversion Hd.
    + simpl. by rewrite app_nil_r.
  - rewrite for_each_cons, create_directory_run.
    destruct (mkdir_parents true (Path d) (fs w)) as [e|n1] eqn:Hm.
    + intros [= <- <-]. split; [apply adds_dirs_refl|].
      split; [reflexivity|discriminate].
    + intros Hrest. apply mkdir_parents_spec in Hm as [Hd Ha].
      destruct (IH _ Hrest) as (Ha' & Hsp & Hok). simpl in *.
      split; [by eapply adds_dirs_trans|]. split; [exact Hsp|].
      intros Hr. destruct (Hok Hr) as [Hdirs Hout]. split.
      * intros d' [->|Hd']%elem_of_cons; [|by apply Hdirs].
        by apply (adds_dirs_grows _ _ Ha').
      * rewrite Hout, <- app_assoc. reflexivity.
Qed.


End Scaffolder.

(** ** The placeholder generator *)

Section Placeholders.
Import FS FSFacts.

Lemma arch_note_text :
  arch_note =
  "Note: Please create an architecture diagram at docs/assets/agentbridge-architecture.png"
  ++ nl.
Proof. by vm_compute. Qed.

Lemma create_placeholder_run f w :
  create_placeholder f w =
  if exists_ (fs w) (Path f) then (Ret tt, w)
  else match os_write (fs w) (Path f) (placeholder_of f) with
       | inr n' =>
           (Ret tt, mkWorld n' (stdout w ++ [file_report f]) (spawned w))
       | inl e => (Raise (OSError e), w)
       end.
Proof.
  unfold create_placeholder. rewrite bind_run.
  unfold Py.path_exists.
  destruct (exists_ (fs w) (Path f)); simpl; [reflexivity|].
  rewrite bind_run. unfold Py.path_write_text, Py.lift_fs, placeholder_of.
  destruct (os_write _ _ _); reflexivity.
Qed.

(** What one round of the loop does to the disk. *)
Lemma create_placeholder_step f w r w1 :
  create_placeholder f w = (r, w1) →
  grows (fs w) (fs w1) ∧ spawned w1 = spawned w ∧
  stdout w `prefix_of` stdout w1 ∧
  (∀ q, q ≠ Path f → stat (fs w1) q = stat (fs w) q) ∧
  (r = Ret tt →
     exists_ (fs w1) (Path f) = true ∧
     (stat (fs w) (Path f) = None →
      stat (fs w1) (Path f) = Some (IsFile (placeholder_of f)))).
Proof.
  rewrite create_placeholder_run.
  destruct (exists_ (fs w) (Path f)) eqn:Hex.
  - intros [= <- <-]. split; [apply grows_refl|]. repeat split; try done.
    intros Hnone%exists_stat. congruence.
  - apply exists_stat in Hex.
    destruct (os_write _ _ _) as [e|n1] eqn:Hw; intros [= <- <-].
    + split; [apply grows_refl|]. repeat split; done.
    + pose proof (os_write_stat _ _ _ _ Hw) as Hq. simpl.
      split; [by eapply os_write_grows|]. split; [done|].
      split; [by apply prefix_app_r|]. split.
      * intros q Hne. rewrite Hq. by case_decide.
      * intros _. unfold exists_. rewrite Hq.
        rewrite decide_True by done. done.
Qed.

(** The loop, over any list of files. *)
Lemma placeholders_run l w r w' :
  Py.for_each l create_placeholder w = (r, w') →
  grows (fs w) (fs w') ∧ spawned w' = spawned w ∧
  stdout w `prefix_of` stdout w' ∧
  (∀ q, q ∉ Path <$> l → stat (fs w') q = stat (fs w) q) ∧
  (r = Ret tt → ∀ f, f ∈ l → exists_ (fs w') (Path f) = true).
Proof.
  revert w. induction l as [|f l IH]; intros w.
  - intros [= <- <-]. split; [apply grows_refl|]. repeat split; try done.
    intros _ f Hf. inversion Hf.
  - rewrite for_each_cons.
    destruct (create_placeholder f w) as [[[]|e] w1] eqn:Hstep;
      apply create_placeholder_step in Hstep
        as (Hg & Hsp & Hout & Hother & Hdone).
    + intros (Hg' & Hsp' & Hout' & Hother' & Hdone')%IH.
      split; [by eapply grows_trans|]. split; [congruence|].
      split; [by etrans|]. split.
      * intros q Hq. rewrite fmap_cons in Hq.
        apply not_elem_of_cons in Hq as [Hne Hq].
        rewrite Hother', Hother; done.
      * intros Hr f' [->|Hf']%elem_of_cons; [|by apply Hdone'].
        destruct (Hdone eq_refl) as [Hex _].
        unfold exists_ in *.
        destruct (stat (fs w1) (Path f)) as [x|] eqn:Hx; [|done].
        by rewrite (Hg' _ _ Hx).
    + intros [= <- <-]. split; [done|]. repeat split; try done.
      intros q Hq. rewrite fmap_cons in Hq.
      apply not_elem_of_cons in Hq as [Hne Hq]. by apply Hother.
Qed.

Lemma placeholders_written l w w' :
  NoDup (Path <$> l) →
  Py.for_each l create_placeholder w = (Ret tt, w') →
  ∀ f, f ∈ l → stat (fs w) (Path f) = None →
       stat (fs w') (Path f) = Some (IsFile (placeholder_of f)).
Proof.
  revert w. induction l as [|f l IH]; intros w Hnd.
  - intros _ f Hf. inversion Hf.
  - rewrite fmap_cons in Hnd. apply NoDup_cons in Hnd as [Hfl Hnd].
    rewrite for_each_cons.
    destruct (create_placeholder f w) as [[[]|e] w1] eqn:Hstep;
      [|discriminate].
    apply create_placeholder_step in Hstep
      as (Hg & Hsp & Hout & Hother & Hdone).
    intros Hrest f' [->|Hf']%elem_of_cons Hnone.
    + destruct (Hdone eq_refl) as [_ Hw].
      apply placeholders_run in Hrest as (Hg' & _).
      apply Hg', Hw, Hnone.
    + apply (IH _ Hnd Hrest _ Hf'). rewrite Hother; [done|].
      intros Heq. apply Hfl. rewrite <- Heq.
      by apply list_elem_of_fmap_2.
Qed.

(** The loop returns normally when the parent of every file is a
    directory. *)
Lemma placeholders_ok l w :
  (∀ f, f ∈ l → stat (fs w) (parent (Path f)) = Some IsDir) →
  ∃ w', Py.for_each l create_placeholder w = (Ret tt, w').
Proof.
  revert w. induction l as [|f l IH]; intros w Hl.
  - by exists w.
  - rewrite for_each_cons.
    destruct (create_placeholder f w) as [r w1] eqn:Hstep.
    pose proof Hstep as (Hg & _)%create_placeholder_step.
    assert (r = Ret tt) as ->.
    { rewrite create_placeholder_run in Hstep.
      destruct (exists_ (fs w) (Path f)) eqn:Hex; [congruence|].
      apply exists_stat in Hex.
      destruct (os_write_ok (fs w) (Path f) (placeholder_of f))
        as [n1 Hn1]; [apply Hl; by left|done|].
      rewrite Hn1 in Hstep. congruence. }
    apply IH. intros f' Hf'. apply Hg, Hl. by right.
Qed.

Lemma create_placeholder_files_run w :
  create_placeholder_files w =
  Py.for_each expected_files create_placeholder
    (if exists_ (fs w) arch_diagram_path then w
     else mkWorld (fs w) (stdout w ++ [arch_note]) (spawned w)).
Proof.
  unfold create_placeholder_files. rewrite bind_run.
  unfold Py.path_exists.
  destruct (exists_ (fs w) arch_diagram_path); reflexivity.
Qed.

(** *** The two fixed lists *)

Lemma expected_files_NoDup : NoDup (Path <$> expected_files).
Proof. apply (bool_decide_unpack _). vm_compute. exact I. Qed.

Lemma arch_diagram_not_expected :
  arch_diagram_path ∉ Path <$> expected_files.
Proof. apply (bool_decide_unpack _). vm_compute. exact I. Qed.

(** The parent of every expected file is one of [DOCS_DIRS] or lies above
    one. *)
Lemma expected_parents :
  Forall (λ f, Exists (λ d, parent (Path f) `prefix_of` Path d) DOCS_DIRS)
         expected_files.
Proof. apply (bool_decide_unpack _). vm_compute. exact I. Qed.

End Placeholders.

(** ** Substrings of the placeholder document *)

Section Substrings.

Lemma append_cons c (a b : string) : String c a ++ b = String c (a ++ b).
Proof. reflexivity. Qed.

Lemma append_assoc (a b c : string) : (a ++ b) ++ c = a ++ (b ++ c).
Proof.
  induction a as [|x a IH]; [reflexivity|].
  rewrite !append_cons, IH. reflexivity.
Qed.

Lemma startswith_append (a b : string) : PyStr.startswith (a ++ b) a = true.
Proof.
  induction a as [|c a IH]; [reflexivity|].
  rewrite append_cons. simpl. rewrite Ascii.eqb_refl. exact IH.
Qed.

Lemma contains_unfold (x s : string) :
  PyStr.contains x s =
  PyStr.startswith s x ||
  match s with
  | EmptyString => false
  | String _ s' => PyStr.contains x s'
  end.
Proof. destruct s; reflexivity. Qed.

Lemma contains_later (x a s : string) :
  PyStr.contains x s = true → PyStr.contains x (a ++ s) = true.
Proof.
  intros Hs. induction a as [|c a IH]; [exact Hs|].
  rewrite append_cons, contains_unfold, IH. apply orb_true_r.
Qed.

Lemma startswith_split (s a b : string) :
  s = a ++ b → PyStr.startswith s a = true.
Proof. intros ->. apply startswith_append. Qed.

Lemma contains_split (x s a b : string) :
  s = a ++ x ++ b → PyStr.contains x s = true.
Proof.
  intros ->. apply contains_later.
  rewrite contains_unfold, startswith_append. reflexivity.
Qed.

End Substrings.

(** The title and the section label of two of the expected files. *)
Example title_of_api_reference :
  placeholder_title (Path "docs/core/api-reference.md") = "Api Reference" ∧
  placeholder_parent (Path "docs/core/api-reference.md") = "Core".
Proof. by vm_compute. Qed.

Example title_of_index :
  placeholder_title (Path "docs/index.md") = "Index" ∧
  placeholder_parent (Path "docs/index.md") = "Docs".
Proof. by vm_compute. Qed.

(** What the template holds, for any title and section label. *)
Lemma placeholder_parts (title section : string) :
  PyStr.startswith (placeholder title section) ("# " ++ title ++ nl) = true ∧
  PyStr.contains
    ("This page is under construction. It will contain documentation about "
     ++ title ++ " in the " ++ section ++ " section." ++ nl)
    (placeholder title section) = true ∧
  PyStr.contains ("## Coming Soon" ++ nl) (placeholder title section) = true.
Proof.
  unfold placeholder. split; [|split].
  - eapply startswith_split. rewrite !append_assoc. reflexivity.
  - apply (contains_split _ _ ("# " ++ title ++ nl ++ nl)
             (nl ++ "## Coming Soon" ++ nl ++ nl
              ++ "Check back soon for detailed documentation on this topic."
              ++ nl)).
    rewrite !append_assoc. reflexivity.
  - apply (contains_split _ _
             ("# " ++ title ++ nl ++ nl
              ++ "This page is under construction. It will contain documentation about "
              ++ title ++ " in the " ++ section ++ " section." ++ nl ++ nl)
             (nl ++ "Check back soon for detailed documentation on this topic."
              ++ nl)).
    rewrite !append_assoc. reflexivity.
Qed.

(** ** The scaffolder and the placeholder generator together *)

Lemma scaffolded_parents w w1 :
  create_directories w = (Ret tt, w1) →
  ∀ f, f ∈ expected_files →
       FS.stat (fs w1) (parent (Path f)) = Some IsDir.
Proof.
  intros Hrun f Hf.
  apply create_dirs_run in Hrun as (_ & _ & Hok).
  destruct (Hok eq_refl) as [Hdirs _].
  pose proof expected_parents as Hpar.
  rewrite Forall_forall in Hpar. specialize (Hpar f Hf).
  apply Exists_exists in Hpar as (d & Hd & Hpre).
  apply FSFacts.is_dir_stat.
  apply (FSFacts.is_dir_prefix _ _ _ Hpre), FSFacts.is_dir_stat, Hdirs, Hd.
Qed.

(** After the scaffolder, the placeholder generator runs to its end; what
    the disk then holds. *)
Lemma after_scaffold w w1 :
  create_directories w = (Ret tt, w1) →
  ∃ w2, create_placeholder_files w1 = (Ret tt, w2) ∧
        FS.grows (fs w) (fs w2) ∧
        (∀ d, d ∈ DOCS_DIRS → FS.stat (fs w2) (Path d) = Some IsDir) ∧
        (∀ f, f ∈ expected_files → FS.exists_ (fs w2) (Path f) = true).
Proof.
  intros Hrun. pose proof (scaffolded_parents _ _ Hrun) as Hpar.
  apply create_dirs_run in Hrun as (Hadd & _ & Hok).
  destruct (Hok eq_refl) as [Hdirs _].
  rewrite create_placeholder_files_run.
  set (w1' := if FS.exists_ (fs w1) arch_diagram_path then w1 else _).
  assert (fs w1' = fs w1) as Hfs by (subst w1'; by destruct (FS.exists_ _ _)).
  destruct (placeholders_ok expected_files w1') as [w2 Hw2].
  { intros f Hf. rewrite Hfs. by apply Hpar. }
  exists w2. split; [exact Hw2|].
  apply placeholders_run in Hw2 as (Hg & _ & _ & _ & Hdone).
  rewrite Hfs in Hg. split; [|split].
  - eapply FSFacts.grows_trans; [|exact Hg].
    by apply FSFacts.adds_dirs_grows.
  - intros d Hd. apply Hg, Hdirs, Hd.
  - by apply Hdone.
Qed.

(** C1.  When [create_directories] has run, [create_placeholder_files] runs
    to its end too, and then every directory of [DOCS_DIRS] is a directory on
    disk, every path of [expected_files] exists, and every expected file that
    was there before the two ran still has the content it had. *)
Theorem scaffold_then_placeholders w w1 :
  create_directories w = (Ret tt, w1) →
  ∃ w2, create_placeholder_files w1 = (Ret tt, w2) ∧
        (∀ d, d ∈ DOCS_DIRS → FS.is_dir (fs w2) (Path d) = true) ∧
        (∀ f, f ∈ expected_files → FS.exists_ (fs w2) (Path f) = true) ∧
        (∀ f content, f ∈ expected_files →
           FS.stat (fs w) (Path f) = Some (IsFile content) →
           FS.stat (fs w2) (Path f) = Some (IsFile content)).
Proof.
  intros (w2 & Hw2 & Hg & Hdirs & Hfiles)%after_scaffold.
  exists w2. split; [exact Hw2|]. split; [|split].
  - intros d Hd. apply FSFacts.is_dir_stat, Hdirs, Hd.
  - exact Hfiles.
  - intros f content _ Hf. apply Hg, Hf.
Qed.

Lemma scaffold_then_placeholders_witness :
  ∃ w2, create_placeholder_files (create_directories (world_of disk_edited)).2
        = (Ret tt, w2) ∧
        FS.is_dir (fs w2) (Path "docs/web/react") = true ∧
        FS.exists_ (fs w2) (Path "docs/core/overview.md") = true ∧
        FS.stat (fs w2) (Path "docs/index.md") = Some (IsFile "# Welcome").
Proof.
  destruct (scaffold_then_placeholders (world_of disk_edited)
              (create_directories (world_of disk_edited)).2)
    as (w2 & Hrun & Hdirs & Hfiles & Hkept); [by vm_compute|].
  exists w2. split; [exact Hrun|]. split; [|split].
  - apply Hdirs. apply (bool_decide_unpack _). by vm_compute.
  - apply Hfiles. apply (bool_decide_unpack _). by vm_compute.
  - apply Hkept; [apply (bool_decide_unpack _)|]; by vm_compute.
Defined.

(** C10.  When [create_directories] has run, the parent of every path of
    [expected_files] is a directory on disk (it is one of [DOCS_DIRS] or lies
    above one), and [create_placeholder_files] returns without an error: no
    write goes into a missing directory. *)
Theorem parents_scaffolded w w1 :
  create_directories w = (Ret tt, w1) →
  (∀ f, f ∈ expected_files →
     FS.is_dir (fs w1) (parent (Path f)) = true ∧
     ∃ d, d ∈ DOCS_DIRS ∧ parent (Path f) `prefix_of` Path d) ∧
  ∃ w2, create_placeholder_files w1 = (Ret tt, w2).
Proof.
  intros Hrun. split.
  - intros f Hf. split.
    + apply FSFacts.is_dir_stat. by eapply scaffolded_parents.
    + pose proof expected_parents as Hpar.
      rewrite Forall_forall in Hpar. specialize (Hpar f Hf).
      apply Exists_exists in Hpar as (d & Hd & Hpre). eauto.
  - destruct (after_scaffold _ _ Hrun) as (w2 & Hw2 & _). eauto.
Qed.

Lemma parents_scaffolded_witness :
  FS.is_dir (fs (create_directories (world_of disk_fresh)).2)
            (parent (Path "docs/index.md")) = true ∧
  ∃ w2, create_placeholder_files (create_directories (world_of disk_fresh)).2
        = (Ret tt, w2).
Proof.
  destruct (parents_scaffolded (world_of disk_fresh)
              (create_directories (world_of disk_fresh)).2)
    as [Hpar Hrun]; [by vm_compute|].
  split; [|exact Hrun].
  apply Hpar. apply (bool_decide_unpack _). by vm_compute.
Defined.

(** C2.  On a disk where the parent of every expected file is a directory,
    [create_placeholder_files] returns normally, and every path of
    [expected_files] that did not exist then holds a document that starts
    with the heading [# title], where [title] is the stem of the file with
    hyphens replaced by spaces, in title case; the document has the one-line
    description naming that title and the section label, which is the name
    of the parent directory under the same transformation, and the
    coming-soon heading. *)
Theorem placeholders_written_from_template w :
  (∀ f, f ∈ expected_files →
     FS.is_dir (fs w) (parent (Path f)) = true) →
  ∃ w', create_placeholder_files w = (Ret tt, w') ∧
    ∀ f, f ∈ expected_files → FS.exists_ (fs w) (Path f) = false →
      let title := PyStr.title (PyStr.replace "-" " " (stem (Path f))) in
      let section :=
        PyStr.title (PyStr.replace "-" " " (name (parent (Path f)))) in
      ∃ content,
        FS.stat (fs w') (Path f) = Some (IsFile content) ∧
        content = placeholder title section ∧
        PyStr.startswith content ("# " ++ title ++ nl) = true ∧
        PyStr.contains
          ("This page is under construction. It will contain documentation about "
           ++ title ++ " in the " ++ section ++ " section." ++ nl)
          content = true ∧
        PyStr.contains ("## Coming Soon" ++ nl) content = true.
Proof.
  intros Hpar. rewrite create_placeholder_files_run.
  set (w1 := if FS.exists_ (fs w) arch_diagram_path then w else _).
  assert (fs w1 = fs w) as Hfs by (subst w1; by destruct (FS.exists_ _ _)).
  destruct (placeholders_ok expected_files w1) as [w' Hw'].
  { intros f Hf. rewrite Hfs. by apply FSFacts.is_dir_stat, Hpar. }
  exists w'. split; [exact Hw'|].
  intros f Hf Hmissing%FSFacts.exists_stat title section.
  exists (placeholder title section). split.
  - apply (placeholders_written _ _ _ expected_files_NoDup Hw' f Hf).
    by rewrite Hfs.
  - split; [reflexivity|]. apply placeholder_parts.
Qed.

Lemma placeholders_written_from_template_witness :
  ∃ w', create_placeholder_files (create_directories (world_of disk_edited)).2
        = (Ret tt, w') ∧
    ∃ content,
      FS.stat (fs w') (Path "docs/mobile/react-native/overview.md")
      = Some (IsFile content) ∧
      PyStr.startswith content ("# Overview" ++ nl) = true ∧
      PyStr.contains
        ("documentation about Overview in the React Native section." ++ nl)
        content = true.
Proof.
  destruct (placeholders_written_from_template
              (create_directories (world_of disk_edited)).2)
    as (w' & Hrun & Hdocs).
  { apply Forall_forall. apply (bool_decide_unpack _). by vm_compute. }
  exists w'. split; [exact Hrun|].
  destruct (Hdocs "docs/mobile/react-native/overview.md")
    as (content & Hstat & -> & Hhead & Hline & _).
  - apply (bool_decide_unpack _). by vm_compute.
  - by vm_compute.
  - exists (placeholder "Overview" "React Native").
    split; [exact Hstat|]. split; by vm_compute.
Defined.

(** ** Running the scaffolder again *)




(** ** The architecture diagram *)

(** C9.  When the architecture diagram is missing,
    [create_placeholder_files] first prints the note that asks for it and
    goes on; the diagram is still missing at the end, however the run ends.
    A run that returns normally leaves every expected file on disk, the
    missing ones written from the template; and the run does return normally
    when the parent of every expected file is a directory. *)
Theorem diagram_only_noted w r w' :
  FS.exists_ (fs w) arch_diagram_path = false →
  create_placeholder_files w = (r, w') →
  FS.exists_ (fs w') arch_diagram_path = false ∧
  (stdout w ++
    [("Note: Please create an architecture diagram at docs/assets/agentbridge-architecture.png"
      ++ nl)%string])%list `prefix_of` stdout w' ∧
  (r = Ret tt →
   ∀ f, f ∈ expected_files →
     FS.exists_ (fs w') (Path f) = true ∧
     (FS.exists_ (fs w) (Path f) = false →
      FS.stat (fs w') (Path f) = Some (IsFile (placeholder_of f)))) ∧
  ((∀ f, f ∈ expected_files →
      FS.is_dir (fs w) (parent (Path f)) = true) → r = Ret tt).
Proof.
  intros Hmissing. rewrite create_placeholder_files_run, Hmissing.
  set (w1 := mkWorld (fs w) (stdout w ++ [arch_note]) (spawned w)).
  assert (fs w1 = fs w) as Hfs by reflexivity.
  assert (stdout w1 = (stdout w ++ [arch_note])%list) as Hnote by reflexivity.
  clearbody w1. intros Hrun.
  pose proof (placeholders_run _ _ _ _ Hrun)
    as (Hg & _ & Hout & Hother & Hdone).
  rewrite Hfs in Hother. rewrite Hnote, arch_note_text in Hout.
  split; [|split; [|split]].
  - apply FSFacts.exists_stat. apply FSFacts.exists_stat in Hmissing.
    rewrite Hother by apply arch_diagram_not_expected. exact Hmissing.
  - exact Hout.
  - intros -> f Hf. split; [by apply Hdone|].
    intros Hf0%FSFacts.exists_stat. rewrite <- Hfs in Hf0.
    exact (placeholders_written _ _ _ expected_files_NoDup Hrun f Hf Hf0).
  - intros Hpar.
    destruct (placeholders_ok expected_files w1) as [w2 Hw2];
      [|rewrite Hw2 in Hrun; congruence].
    intros f Hf. rewrite Hfs. by apply FSFacts.is_dir_stat, Hpar.
Qed.

Lemma diagram_only_noted_witness :
  let w := (create_directories (world_of disk_fresh)).2 in
  let w' := (create_placeholder_files w).2 in
  FS.exists_ (fs w') arch_diagram_path = false ∧
  FS.exists_ (fs w') (Path "docs/advanced/error-handling.md") = true.
Proof.
  intros w w'.
  destruct (diagram_only_noted w (create_placeholder_files w).1 w')
    as (Hdiagram & _ & Hfiles & _); [by vm_compute|by vm_compute|].
  split; [exact Hdiagram|].
  apply Hfiles; [by vm_compute|].
  apply (bool_decide_unpack _). by vm_compute.
Defined.

(** ** Subprocesses and the menu *)

Section Dispatcher.
Context (E : Env).

(** *** How [subprocess.run] ends *)

Lemma subprocess_run_failed cmd w rc n' :
  run_process E (length (spawned w)) cmd (fs w) = (Exited rc, n') →
  rc ≠ 0%Z →
  Py.subprocess_run E cmd w =
  (Raise (CalledProcessError cmd rc),
   mkWorld n' (stdout w) (spawned w ++ [cmd])).
Proof.
  intros Hrun Hrc. unfold Py.subprocess_run. rewrite Hrun.
  destruct rc; [congruence|reflexivity..].
Qed.

Lemma subprocess_run_interrupted cmd w n' :
  run_process E (length (spawned w)) cmd (fs w) = (Interrupted, n') →
  Py.subprocess_run E cmd w =
  (Raise KeyboardInterrupt, mkWorld n' (stdout w) (spawned w ++ [cmd])).
Proof. intros Hrun. unfold Py.subprocess_run. by rewrite Hrun. Qed.

(** A subprocess is started or not; nothing else is. *)
Lemma subprocess_run_spawned cmd w :
  let r := Py.subprocess_run E cmd w in
  stdout r.2 = stdout w ∧
  (spawned r.2 = (spawned w ++ [cmd])%list ∨
   (r.2 = w ∧ ∃ e, r.1 = Raise (OSError e))).
Proof.
  unfold Py.subprocess_run.
  destruct (run_process E _ cmd (fs w)) as [[rc| |e] n'].
  - destruct rc; simpl; eauto.
  - simpl; eauto.
  - simpl; eauto.
Qed.

(** *** The three steps that start a subprocess *)

Lemma install_dependencies_failed w rc n' :
  run_process E (length (spawned w)) (pip_install E) (fs w)
  = (Exited rc, n') →
  rc ≠ 0%Z →
  install_dependencies E w =
  (Raise (SystemExit 1),
   mkWorld n' (stdout w ++ [install_error E rc])
           (spawned w ++ [pip_install E])).
Proof.
  intros Hrun Hrc. unfold install_dependencies, Py.try_except.
  rewrite bind_run, (subprocess_run_failed _ _ _ _ Hrun Hrc).
  reflexivity.
Qed.

Lemma build_documentation_failed w rc n' :
  run_process E (length (spawned w)) mkdocs_build (fs w) = (Exited rc, n') →
  rc ≠ 0%Z →
  build_documentation E w =
  (Raise (SystemExit 1),
   mkWorld n' (stdout w ++ [build_error E rc]) (spawned w ++ [mkdocs_build])).
Proof.
  intros Hrun Hrc. unfold build_documentation, Py.try_except.
  rewrite bind_run, (subprocess_run_failed _ _ _ _ Hrun Hrc).
  reflexivity.
Qed.

Lemma serve_documentation_failed w rc n' :
  run_process E (length (spawned w)) mkdocs_serve (fs w) = (Exited rc, n') →
  rc ≠ 0%Z →
  serve_documentation E w =
  (Raise (SystemExit 1),
   mkWorld n' (stdout w ++ serve_banner ++ [serve_error E rc])
           (spawned w ++ [mkdocs_serve])).
Proof.
  intros Hrun Hrc. unfold serve_documentation, Py.try_except.
  rewrite !print_then.
  rewrite (subprocess_run_failed _ _ rc n') by done.
  rewrite print_then. unfold serve_banner, Py.sys_exit, Py.raise. simpl.
  by rewrite <- !app_assoc.
Qed.

Lemma serve_documentation_interrupted w n' :
  run_process E (length (spawned w)) mkdocs_serve (fs w)
  = (Interrupted, n') →
  serve_documentation E w =
  (Ret tt,
   mkWorld n' (stdout w ++ serve_banner ++ [(nl ++ "Server stopped.") ++ nl])
           (spawned w ++ [mkdocs_serve])).
Proof.
  intros Hrun. unfold serve_documentation, Py.try_except.
  rewrite !print_then.
  rewrite (subprocess_run_interrupted _ _ n') by done.
  rewrite print_run. unfold serve_banner. simpl.
  by rewrite <- !app_assoc.
Qed.

(** *** One round of the menu *)

Lemma menu_text_run w : menu_text w = (Ret tt, prompted w).
Proof.
  unfold menu_text, prompted, menu_chunks.
  rewrite !print_then. unfold Py.write. simpl.
  by rewrite <- !app_assoc.
Qed.

Lemma menu_loop_nil w : menu_loop E [] w = (Raise EOFError, prompted w).
Proof.
  change (menu_loop E [] w)
    with ((menu_text ;; (Py.raise EOFError : M unit)) w).
  by rewrite bind_run, menu_text_run.
Qed.

Lemma menu_loop_cons choice rest w :
  menu_loop E (choice :: rest) w =
  (if String.eqb choice "1" then
     build_documentation E ;; menu_loop E rest
   else if String.eqb choice "2" then
     serve_documentation E ;; menu_loop E rest
   else if String.eqb choice "3" then
     Py.print "Exiting..."
   else
     Py.print "Invalid choice. Please try again." ;; menu_loop E rest)
    (prompted w).
Proof.
  change (menu_loop E (choice :: rest) w)
    with ((menu_text ;;
           if String.eqb choice "1" then
             build_documentation E ;; menu_loop E rest
           else if String.eqb choice "2" then
             serve_documentation E ;; menu_loop E rest
           else if String.eqb choice "3" then
             Py.print "Exiting..."
           else
             Py.print "Invalid choice. Please try again." ;;
             menu_loop E rest) w).
  by rewrite bind_run, menu_text_run.
Qed.

Lemma main_run lines w :
  main E lines w =
  match main_setup E w with
  | (Ret _, w') => menu_loop E lines w'
  | (Raise e, w') => (Raise e, w')
  end.
Proof. reflexivity. Qed.

End Dispatcher.

(** ** Standard output only grows *)

Section Appends.
Context (E : Env).

Lemma appends_ret {A} (a : A) : appends (mret a : M A).
Proof. intros w. reflexivity. Qed.

Lemma appends_raise {A} e : appends (Py.raise e : M A).
Proof. intros w. reflexivity. Qed.

Lemma appends_write s : appends (Py.write s).
Proof. intros w. by apply prefix_app_r. Qed.

Lemma appends_print s : appends (Py.print s).
Proof. apply appends_write. Qed.

Lemma appends_bind {A B} (m : M A) (f : A → M B) :
  appends m → (∀ a, appends (f a)) → appends (m ≫= f).
Proof.
  intros Hm Hf w. rewrite bind_run. specialize (Hm w).
  destruct (m w) as [[a|e] w1]; simpl in *; [|exact Hm].
  etrans; [exact Hm|apply Hf].
Qed.

Lemma appends_try {A} (body : M A) handler :
  appends body → (∀ e h, handler e = Some h → appends h) →
  appends (Py.try_except body handler).
Proof.
  intros Hb Hh w. unfold Py.try_except. specialize (Hb w).
  destruct (body w) as [[a|e] w1]; simpl in *; [exact Hb|].
  destruct (handler e) as [h|] eqn:He; [|exact Hb].
  etrans; [exact Hb|by eapply Hh].
Qed.

Lemma appends_subprocess_run cmd : appends (Py.subprocess_run E cmd).
Proof.
  intros w. destruct (subprocess_run_spawned E cmd w) as [-> _].
  reflexivity.
Qed.

Lemma appends_build : appends (build_documentation E).
Proof.
  apply appends_try.
  - apply appends_bind; [apply appends_subprocess_run|].
    intros _. apply appends_print.
  - intros [] h [= <-].
    apply appends_bind; [apply appends_print|].
    intros _. apply appends_raise.
Qed.

Lemma appends_serve : appends (serve_documentation E).
Proof.
  apply appends_try.
  - repeat (apply appends_bind; [apply appends_print|intros _]).
    apply appends_subprocess_run.
  - intros [] h [= <-].
    + apply appends_bind; [apply appends_print|].
      intros _. apply appends_raise.
    + apply appends_print.
Qed.

(** Every round of the menu starts by showing the menu. *)
Lemma menu_loop_shows_menu lines w :
  (stdout w ++ menu_chunks)%list `prefix_of` stdout (menu_loop E lines w).2.
Proof.
  revert w. induction lines as [|choice rest IH]; intros w.
  - rewrite menu_loop_nil. reflexivity.
  - rewrite menu_loop_cons.
    change (stdout w ++ menu_chunks)%list with (stdout (prompted w)).
    assert (appends (menu_loop E rest)) as Hloop.
    { intros w1. etrans; [|apply IH]. by apply prefix_app_r. }
    generalize (prompted w).
    change (∀ w1, stdout w1 `prefix_of` stdout (?m w1).2) with (appends m).
    repeat case_match.
    + apply appends_bind; [apply appends_build|done].
    + apply appends_bind; [apply appends_serve|done].
    + apply appends_print.
    + apply appends_bind; [apply appends_print|done].
Qed.

End Appends.

(** ** [main] up to the menu *)

Section Setup.
Context (E : Env).

Lemma require_config_run w :
  require_config w =
  if FS.exists_ (fs w) (Path "mkdocs.yml")
  then (Ret tt, mkWorld (fs w) (stdout w ++ [banner]) (spawned w))
  else (Raise (SystemExit 1),
        mkWorld (fs w) (stdout w ++ [banner; config_error]) (spawned w)).
Proof.
  unfold require_config. rewrite print_then, bind_run.
  unfold Py.path_exists.
  change (fs (mkWorld (fs w) ?o ?s)) with (fs w).
  destruct (FS.exists_ (fs w) (Path "mkdocs.yml")); [reflexivity|].
  change (negb false) with true. cbv iota.
  rewrite print_then. unfold Py.sys_exit, Py.raise, banner, config_error.
  simpl. by rewrite <- app_assoc.
Qed.

Lemma main_setup_run w :
  main_setup E w =
  match require_config w with
  | (Ret _, w1) =>
      match create_directories w1 with
      | (Ret _, w2) =>
          match install_dependencies E w2 with
          | (Ret _, w3) => create_placeholder_files w3
          | (Raise e, w3) => (Raise e, w3)
          end
      | (Raise e, w2) => (Raise e, w2)
      end
  | (Raise e, w1) => (Raise e, w1)
  end.
Proof.
  unfold main_setup. rewrite bind_run.
  destruct (require_config w) as [[[]|e] w1]; [|reflexivity].
  rewrite bind_run.
  destruct (create_directories w1) as [[[]|e] w2]; [|reflexivity].
  rewrite bind_run. reflexivity.
Qed.

Lemma install_dependencies_ok w w' :
  install_dependencies E w = (Ret tt, w') →
  spawned w' = (spawned w ++ [pip_install E])%list.
Proof.
  unfold install_dependencies, Py.try_except. rewrite bind_run.
  unfold Py.subprocess_run.
  destruct (run_process E _ _ (fs w)) as [[rc| |e] n'];
    [destruct rc|..]; simpl; intros [= <-]; reflexivity.
Qed.

(** A set-up that reaches the menu has started [pip], and nothing else. *)
Lemma main_setup_spawned w0 w :
  main_setup E w0 = (Ret tt, w) →
  spawned w = (spawned w0 ++ [pip_install E])%list.
Proof.
  rewrite main_setup_run, require_config_run.
  destruct (FS.exists_ (fs w0) (Path "mkdocs.yml")); [|discriminate].
  destruct (create_directories _) as [[[]|e] w2] eqn:Hdirs; [|discriminate].
  apply create_dirs_run in Hdirs as (_ & Hsp2 & _).
  destruct (install_dependencies E w2) as [[[]|e] w3] eqn:Hpip;
    [|discriminate].
  apply install_dependencies_ok in Hpip.
  rewrite create_placeholder_files_run. intros Hrun.
  apply placeholders_run in Hrun as (_ & Hsp & _).
  rewrite Hsp. destruct (FS.exists_ (fs w3) arch_diagram_path);
    simpl; rewrite Hpip, Hsp2; reflexivity.
Qed.

End Setup.

(** ** A failing build or serve, at the menu *)

Section MenuFailures.
Context (E : Env).

Lemma menu_loop_build_failed rest w rc n' :
  run_process E (length (spawned w)) mkdocs_build (fs w) = (Exited rc, n') →
  rc ≠ 0%Z →
  menu_loop E ("1" :: rest) w =
  (Raise (SystemExit 1),
   mkWorld n' (stdout w ++ menu_chunks ++ [build_error E rc])
           (spawned w ++ [mkdocs_build])).
Proof.
  intros Hbuild Hrc. rewrite menu_loop_cons.
  change (String.eqb "1" "1") with true. cbv iota.
  rewrite bind_run.
  rewrite (build_documentation_failed E (prompted w) rc n') by done.
  unfold prompted. cbn [fs stdout spawned]. by rewrite <- app_assoc.
Qed.

Lemma menu_loop_serve_failed rest w rc n' :
  run_process E (length (spawned w)) mkdocs_serve (fs w) = (Exited rc, n') →
  rc ≠ 0%Z →
  menu_loop E ("2" :: rest) w =
  (Raise (SystemExit 1),
   mkWorld n'
     (stdout w ++ menu_chunks ++ serve_banner ++ [serve_error E rc])
     (spawned w ++ [mkdocs_serve])).
Proof.
  intros Hserve Hrc. rewrite menu_loop_cons.
  change (String.eqb "2" "1") with false.
  change (String.eqb "2" "2") with true. cbv iota.
  rewrite bind_run.
  rewrite (serve_documentation_failed E (prompted w) rc n') by done.
  unfold prompted. cbn [fs stdout spawned]. by rewrite <- app_assoc.
Qed.

(** [main] when the statements before [install_dependencies()] have run
    and the install fails. *)
Lemma main_install_failed lines w0 w rc n' :
  (require_config ;; create_directories) w0 = (Ret tt, w) →
  run_process E (length (spawned w)) (pip_install E) (fs w)
  = (Exited rc, n') →
  rc ≠ 0%Z →
  main E lines w0 =
  (Raise (SystemExit 1),
   mkWorld n' (stdout w ++ [install_error E rc])
           (spawned w ++ [pip_install E])).
Proof.
  rewrite bind_run. intros Hpre Hpip Hrc.
  rewrite main_run, main_setup_run.
  destruct (require_config w0) as [[[]|e] w1]; [|discriminate].
  rewrite Hpre.
  by rewrite (install_dependencies_failed E w rc n').
Qed.

End MenuFailures.

(** ** The configuration file *)

(** C3.  Without [mkdocs.yml] in the working directory, [main] prints the
    banner and the error and ends in [sys.exit(1)]: the exit status is not
    zero, the disk is as it was (no directory made, no placeholder written)
    and no subprocess was started (no install). *)
Theorem missing_config_aborts E lines w :
  FS.exists_ (fs w) (Path "mkdocs.yml") = false →
  main E lines w =
    (Raise (SystemExit 1),
     mkWorld (fs w)
       (stdout w ++
        [ ("Setting up AgentBridge documentation..." ++ nl)%string;
          ("Error: mkdocs.yml not found. Please create it first." ++ nl)%string ])
       (spawned w)) ∧
  Py.exit_status (main E lines w).1 ≠ 0%Z.
Proof.
  intros Hmissing.
  assert (main E lines w =
          (Raise (SystemExit 1),
           mkWorld (fs w) (stdout w ++ [banner; config_error]) (spawned w)))
    as Hmain.
  { rewrite main_run, main_setup_run, require_config_run, Hmissing.
    reflexivity. }
  split; [exact Hmain|]. rewrite Hmain. discriminate.
Qed.

Lemma missing_config_aborts_witness :
  main (env_of all_well) ["1"; "3"] (world_of disk_unconfigured) =
    (Raise (SystemExit 1),
     mkWorld disk_unconfigured
       [ ("Setting up AgentBridge documentation..." ++ nl)%string;
         ("Error: mkdocs.yml not found. Please create it first." ++ nl)%string ]
       []).
Proof.
  apply (missing_config_aborts (env_of all_well) ["1"; "3"]
           (world_of disk_unconfigured)).
  by vm_compute.
Defined.

(** ** The menu *)

(** C4.  At the menu, on the line [2], when an interrupt arrives while the
    script waits for [mkdocs serve]: the script prints the two serving lines
    and the stopped message and is at the menu again, with the rest of the
    input; the menu is shown once more.  The same holds of [main] when its
    set-up has reached the menu. *)
Theorem serve_interrupt_returns_to_menu E rest w n' :
  run_process E (length (spawned w)) mkdocs_serve (fs w) = (Interrupted, n') →
  let w' :=
    mkWorld n'
      (stdout w ++ menu_chunks ++
       [ ("Serving documentation at http://127.0.0.1:8000/" ++ nl)%string;
         ("Press Ctrl+C to stop the server." ++ nl)%string;
         ((nl ++ "Server stopped.") ++ nl)%string ])
      (spawned w ++ [mkdocs_serve]) in
  menu_loop E ("2" :: rest) w = menu_loop E rest w' ∧
  (stdout w' ++ menu_chunks)%list `prefix_of` stdout (menu_loop E rest w').2 ∧
  ∀ w0, main_setup E w0 = (Ret tt, w) →
        main E ("2" :: rest) w0 = menu_loop E rest w'.
Proof.
  intros Hserve w'.
  assert (menu_loop E ("2" :: rest) w = menu_loop E rest w') as Hloop.
  { rewrite menu_loop_cons.
    change (String.eqb "2" "1") with false.
    change (String.eqb "2" "2") with true. cbv iota.
    rewrite bind_run.
    rewrite (serve_documentation_interrupted E (prompted w) n') by exact Hserve.
    f_equal. subst w'. unfold prompted, serve_banner.
    cbn [fs stdout spawned]. f_equal. by rewrite <- app_assoc. }
  split; [exact Hloop|]. split; [apply menu_loop_shows_menu|].
  intros w0 Hsetup. by rewrite main_run, Hsetup.
Qed.

Lemma serve_interrupt_returns_to_menu_witness :
  let E := env_of (but_at 1 Interrupted) in
  let w := (main_setup E (world_of disk_fresh)).2 in
  ∃ w', main E ["2"; "3"] (world_of disk_fresh) = menu_loop E ["3"] w' ∧
        last (stdout w') = Some ((nl ++ "Server stopped.") ++ nl) ∧
        (main E ["2"; "3"] (world_of disk_fresh)).1 = Ret tt.
Proof.
  intros E w.
  destruct (serve_interrupt_returns_to_menu E ["3"] w (fs w))
    as (_ & _ & Hmain); [by vm_compute|].
  eexists. split; [apply Hmain; by vm_compute|].
  split; by vm_compute.
Defined.

(** C5.  At the menu, on the line [1], when [mkdocs build] exits with a
    return code other than 0: the script prints the error and ends in
    [sys.exit(1)]; the menu is not shown again and the rest of the input is
    not read.  The exit status of [main] is then 1. *)
Theorem build_failure_exits E rest w rc n' :
  run_process E (length (spawned w)) mkdocs_build (fs w) = (Exited rc, n') →
  rc ≠ 0%Z →
  let w' :=
    mkWorld n'
      (stdout w ++ menu_chunks ++
       [ (("Error building documentation: "
           ++ str_CalledProcessError E mkdocs_build rc) ++ nl)%string ])
      (spawned w ++ [mkdocs_build]) in
  menu_loop E ("1" :: rest) w = (Raise (SystemExit 1), w') ∧
  ∀ w0, main_setup E w0 = (Ret tt, w) →
        main E ("1" :: rest) w0 = (Raise (SystemExit 1), w') ∧
        Py.exit_status (main E ("1" :: rest) w0).1 = 1%Z.
Proof.
  intros Hbuild Hrc w'.
  pose proof (menu_loop_build_failed E rest w rc n' Hbuild Hrc) as Hloop.
  split; [exact Hloop|].
  intros w0 Hsetup. rewrite main_run, Hsetup, Hloop. done.
Qed.

Lemma build_failure_exits_witness :
  let E := env_of (but_at 1 (Exited 2)) in
  (main E ["1"; "3"] (world_of disk_fresh)).1 = Raise (SystemExit 1) ∧
  last (stdout (main E ["1"; "3"] (world_of disk_fresh)).2)
  = Some ("Error building documentation: Command '['mkdocs', 'build']' returned non-zero exit status 2."
          ++ nl).
Proof.
  intros E.
  destruct (build_failure_exits E ["3"]
              (main_setup E (world_of disk_fresh)).2 2
              (fs (main_setup E (world_of disk_fresh)).2))
    as (_ & Hmain); [by vm_compute|done|].
  destruct (Hmain (world_of disk_fresh)) as [-> _]; [by vm_compute|].
  split; by vm_compute.
Defined.

(** C6.  At the menu, on the line [3]: the script prints the exit message
    and leaves the loop; no subprocess is started in that round.  [main]
    then returns, so the exit status is 0, and the one subprocess it has
    started is [pip]: neither [mkdocs build] nor [mkdocs serve]. *)
Theorem menu_exit E rest w :
  let w' :=
    mkWorld (fs w)
      (stdout w ++ menu_chunks ++ [ ("Exiting..." ++ nl)%string ])
      (spawned w) in
  menu_loop E ("3" :: rest) w = (Ret tt, w') ∧
  ∀ w0, main_setup E w0 = (Ret tt, w) →
        main E ("3" :: rest) w0 = (Ret tt, w') ∧
        Py.exit_status (main E ("3" :: rest) w0).1 = 0%Z ∧
        spawned w' = (spawned w0 ++ [pip_install E])%list.
Proof.
  intros w'.
  assert (menu_loop E ("3" :: rest) w = (Ret tt, w')) as Hloop.
  { rewrite menu_loop_cons.
    change (String.eqb "3" "1") with false.
    change (String.eqb "3" "2") with false.
    change (String.eqb "3" "3") with true. cbv iota.
    rewrite print_run. f_equal. subst w'. unfold prompted.
    cbn [fs stdout spawned]. f_equal. by rewrite <- app_assoc. }
  split; [exact Hloop|].
  intros w0 Hsetup. rewrite main_run, Hsetup, Hloop.
  split; [done|]. split; [done|]. exact (main_setup_spawned E w0 w Hsetup).
Qed.

Lemma menu_exit_witness :
  let E := env_of all_well in
  (main E ["3"] (world_of disk_fresh)).1 = Ret tt ∧
  spawned (main E ["3"] (world_of disk_fresh)).2 = [pip_install E].
Proof.
  intros E.
  destruct (menu_exit E [] (main_setup E (world_of disk_fresh)).2)
    as (_ & Hmain).
  destruct (Hmain (world_of disk_fresh)) as (-> & _ & Hsp); [by vm_compute|].
  split; [reflexivity|]. exact Hsp.
Defined.

(** ** Exit codes *)

(** After the rounds for [pre], the loop goes on with the rest of the
    input. *)
Lemma menu_rounds_loop E pre lines w w' :
  menu_rounds E pre w = Some w' →
  menu_loop E (pre ++ lines)%list w = menu_loop E lines w'.
Proof.
  revert w. induction pre as [|choice pre IH]; intros w; [by intros [= ->]|].
  change ((choice :: pre) ++ lines)%list with (choice :: (pre ++ lines))%list.
  rewrite menu_loop_cons. simpl.
  destruct (String.eqb choice "1");
    [|destruct (String.eqb choice "2"); [|destruct (String.eqb choice "3")]].
  - rewrite bind_run.
    destruct (build_documentation E (prompted w)) as [[[]|e] w1];
      [apply IH|discriminate].
  - rewrite bind_run.
    destruct (serve_documentation E (prompted w)) as [[[]|e] w1];
      [apply IH|discriminate].
  - discriminate.
  - rewrite print_then. apply IH.
Qed.

(** [main] when its set-up has returned and the rounds for [pre] have
    brought the menu back. *)
Lemma main_at_menu E pre lines w0 w1 w :
  main_setup E w0 = (Ret tt, w1) →
  menu_rounds E pre w1 = Some w →
  main E (pre ++ lines)%list w0 = menu_loop E lines w.
Proof.
  intros Hsetup Hrounds. rewrite main_run, Hsetup.
  by apply menu_rounds_loop.
Qed.

(** C8, as the code has it.  When the install, the build or the serve
    subprocess exits with a return code other than 0, the script prints the
    error line of that step and ends in [sys.exit(1)]: the exit status of
    [main] is 1, whatever the return code of the subprocess was, and nothing
    is printed or started after the error.  For the build and the serve
    this holds of the menu loop in any state, and so of [main] at whichever
    round of the menu the line [1] or [2] is read: after the set-up and any
    lines [pre] whose rounds have brought the menu back ([pre] is empty
    when the failing choice is the first line). *)
Theorem failed_step_exits_with_1 E :
  (∀ lines w0 w rc n',
     (require_config ;; create_directories) w0 = (Ret tt, w) →
     run_process E (length (spawned w)) (pip_install E) (fs w)
     = (Exited rc, n') →
     rc ≠ 0%Z →
     main E lines w0 =
       (Raise (SystemExit 1),
        mkWorld n'
          (stdout w ++
           [ (("Error installing dependencies: "
               ++ str_CalledProcessError E (pip_install E) rc) ++ nl)%string ])
          (spawned w ++ [pip_install E])) ∧
     Py.exit_status (main E lines w0).1 = 1%Z) ∧
  (∀ rest w rc n',
     run_process E (length (spawned w)) mkdocs_build (fs w) = (Exited rc, n') →
     rc ≠ 0%Z →
     let w' :=
       mkWorld n'
         (stdout w ++ menu_chunks ++
          [ (("Error building documentation: "
              ++ str_CalledProcessError E mkdocs_build rc) ++ nl)%string ])
         (spawned w ++ [mkdocs_build]) in
     menu_loop E ("1" :: rest) w = (Raise (SystemExit 1), w') ∧
     ∀ pre w0 w1,
       main_setup E w0 = (Ret tt, w1) →
       menu_rounds E pre w1 = Some w →
       main E (pre ++ "1" :: rest)%list w0 = (Raise (SystemExit 1), w') ∧
       Py.exit_status (main E (pre ++ "1" :: rest)%list w0).1 = 1%Z) ∧
  (∀ rest w rc n',
     run_process E (length (spawned w)) mkdocs_serve (fs w) = (Exited rc, n') →
     rc ≠ 0%Z →
     let w' :=
       mkWorld n'
         (stdout w ++ menu_chunks ++
          [ ("Serving documentation at http://127.0.0.1:8000/" ++ nl)%string;
            ("Press Ctrl+C to stop the server." ++ nl)%string;
            (("Error serving documentation: "
              ++ str_CalledProcessError E mkdocs_serve rc) ++ nl)%string ])
         (spawned w ++ [mkdocs_serve]) in
     menu_loop E ("2" :: rest) w = (Raise (SystemExit 1), w') ∧
     ∀ pre w0 w1,
       main_setup E w0 = (Ret tt, w1) →
       menu_rounds E pre w1 = Some w →
       main E (pre ++ "2" :: rest)%list w0 = (Raise (SystemExit 1), w') ∧
       Py.exit_status (main E (pre ++ "2" :: rest)%list w0).1 = 1%Z).
Proof.
  split; [|split].
  - intros lines w0 w rc n' Hpre Hpip Hrc.
    pose proof (main_install_failed E lines w0 w rc n' Hpre Hpip Hrc) as Hmain.
    split; [exact Hmain|]. by rewrite Hmain.
  - intros rest w rc n' Hbuild Hrc w'.
    pose proof (menu_loop_build_failed E rest w rc n' Hbuild Hrc) as Hloop.
    split; [exact Hloop|].
    intros pre w0 w1 Hsetup Hrounds.
    rewrite (main_at_menu E pre _ w0 w1 w Hsetup Hrounds), Hloop. done.
  - intros rest w rc n' Hserve Hrc w'.
    pose proof (menu_loop_serve_failed E rest w rc n' Hserve Hrc) as Hloop.
    split; [exact Hloop|].
    intros pre w0 w1 Hsetup Hrounds.
    rewrite (main_at_menu E pre _ w0 w1 w Hsetup Hrounds), Hloop. done.
Qed.

Lemma failed_step_exits_with_1_witness :
  (let E := env_of (but_at 0 (Exited 2)) in
   (main E ["3"] (world_of disk_fresh)).1 = Raise (SystemExit 1) ∧
   last (stdout (main E ["3"] (world_of disk_fresh)).2)
   = Some ("Error installing dependencies: Command '['/usr/bin/python3', '-m', 'pip', 'install', 'mkdocs', 'mkdocs-material', 'pymdown-extensions', 'mkdocs-git-revision-date-localized-plugin']' returned non-zero exit status 2."
           ++ nl)) ∧
  (let E := env_of (but_at 2 (Exited 3)) in
   (main E ["x"; "1"; "1"; "3"] (world_of disk_fresh)).1
   = Raise (SystemExit 1) ∧
   Py.exit_status (main E ["x"; "1"; "1"; "3"] (world_of disk_fresh)).1
   = 1%Z ∧
   last (stdout (main E ["x"; "1"; "1"; "3"] (world_of disk_fresh)).2)
   = Some ("Error building documentation: Command '['mkdocs', 'build']' returned non-zero exit status 3."
           ++ nl)) ∧
  (let E := env_of (but_at 1 (Exited 4)) in
   (main E ["2"; "3"] (world_of disk_fresh)).1 = Raise (SystemExit 1) ∧
   last (stdout (main E ["2"; "3"] (world_of disk_fresh)).2)
   = Some ("Error serving documentation: Command '['mkdocs', 'serve']' returned non-zero exit status 4."
           ++ nl)).
Proof.
  split; [|split].
  - intros E.
    set (w := ((require_config ;; create_directories) (world_of disk_fresh)).2).
    destruct (proj1 (failed_step_exits_with_1 E) ["3"] (world_of disk_fresh)
                w 2%Z (fs w)) as [-> _]; [by vm_compute..|].
    split; by vm_compute.
  - intros E.
    set (w1 := (main_setup E (world_of disk_fresh)).2).
    set (w := default w1 (menu_rounds E ["x"; "1"] w1)).
    destruct (proj1 (proj2 (failed_step_exits_with_1 E)) ["3"] w 3%Z (fs w))
      as (_ & Hmain); [by vm_compute..|].
    destruct (Hmain ["x"; "1"] (world_of disk_fresh) w1) as [Heq Hexit];
      [by vm_compute..|].
    change (["x"; "1"] ++ "1" :: ["3"])%list
      with ["x"; "1"; "1"; "3"] in Heq, Hexit.
    rewrite Heq. split; [done|]. split; by vm_compute.
  - intros E.
    set (w := (main_setup E (world_of disk_fresh)).2).
    destruct (proj2 (proj2 (failed_step_exits_with_1 E)) ["3"] w 4%Z (fs w))
      as (_ & Hmain); [by vm_compute..|].
    destruct (Hmain [] (world_of disk_fresh) w) as [Heq _];
      [by vm_compute..|].
    change ([] ++ "2" :: ["3"])%list with ["2"; "3"] in Heq.
    rewrite Heq. split; by vm_compute.
Defined.

(** C8 as the specification words it does not hold: the return code of the
    failing subprocess is not what the script exits with.  [pip] exiting
    with 2, and [mkdocs build] exiting with 3, both end the script with
    exit status 1. *)
Lemma exit_code_not_propagated :
  (let E := env_of (but_at 0 (Exited 2)) in
   (run_process E 0 (pip_install E) disk_fresh).1 = Exited 2 ∧
   spawned (main E ["3"] (world_of disk_fresh)).2 = [pip_install E] ∧
   Py.exit_status (main E ["3"] (world_of disk_fresh)).1 = 1%Z ∧
   Py.exit_status (main E ["3"] (world_of disk_fresh)).1 ≠ 2%Z) ∧
  (let E := env_of (but_at 1 (Exited 3)) in
   spawned (main E ["1"] (world_of disk_fresh)).2
   = [pip_install E; mkdocs_build] ∧
   Py.exit_status (main E ["1"] (world_of disk_fresh)).1 = 1%Z ∧
   Py.exit_status (main E ["1"] (world_of disk_fresh)).1 ≠ 3%Z).
Proof. by vm_compute. Qed.

(** * Further properties of the script *)

(** ** More on the system calls *)

Module FSMore.
Import FS FSFacts.

(** Why [os.mkdir] fails. *)
Lemma os_mkdir_error n p e :
  os_mkdir n p = inl e →
  match e with
  | EEXIST => is_Some (stat n p)
  | ENOTDIR => ∃ q c, q `prefix_of` p ∧ stat n q = Some (IsFile c)
  | ENOENT => stat n p = None
  | EISDIR => False
  end.
Proof.
  revert n. induction p as [|c p IH]; intros n.
  - intros [= <-]. simpl. eauto.
  - simpl. destruct n as [s|m].
    + intros [= <-]. exists [], s. split; [apply prefix_nil|reflexivity].
    + destruct (m !! c) as [n1|] eqn:Hc.
      * destruct p as [|d p]; [intros [= <-]; simpl; eauto|].
        destruct (os_mkdir n1 (d :: p)) as [e1|n2] eqn:Hrec; [|discriminate].
        intros [= <-]. specialize (IH _ Hrec).
        destruct e1; try done.
        destruct IH as (q & s & Hq & Hs).
        exists (c :: q), s. split; [by apply prefix_cons|].
        simpl. by rewrite Hc.
      * destruct p as [|d p]; [discriminate|]. by intros [= <-].
Qed.

(** [os.mkdir] succeeds where nothing is and the parent is a directory. *)
Lemma os_mkdir_ok n p :
  stat n (parent p) = Some IsDir → stat n p = None →
  ∃ n', os_mkdir n p = inr n'.
Proof.
  revert n. induction p as [|c p IH]; intros n; [discriminate|].
  destruct p as [|d p].
  - simpl. destruct n as [s|m]; [discriminate|].
    destruct (m !! c) as [n1|]; [discriminate|]. eauto.
  - change (parent (c :: d :: p)) with (c :: parent (d :: p)).
    simpl. destruct n as [s|m]; [discriminate|].
    destruct (m !! c) as [n1|]; [|discriminate].
    intros Hd Hnone. destruct (IH n1 Hd Hnone) as [n2 Hn2].
    simpl in Hn2. rewrite Hn2. eauto.
Qed.

Lemma os_write_below m c d p content :
  os_write (Dir m) (c :: d :: p) content =
  match m !! c with
  | Some n1 =>
      match os_write n1 (d :: p) content with
      | inr n2 => inr (Dir (<[c := n2]> m))
      | inl e => inl e
      end
  | None => inl ENOENT
  end.
Proof. reflexivity. Qed.

Lemma os_mkdir_below m c d p :
  os_mkdir (Dir m) (c :: d :: p) =
  match m !! c with
  | Some n1 =>
      match os_mkdir n1 (d :: p) with
      | inr n2 => inr (Dir (<[c := n2]> m))
      | inl e => inl e
      end
  | None => inl ENOENT
  end.
Proof. simpl. by destruct (m !! c). Qed.

Lemma stat_below m c q :
  stat (Dir m) (c :: q) =
  match m !! c with
  | Some n1 => stat n1 q
  | None => None
  end.
Proof. reflexivity. Qed.


Lemma way_clear_parent n p : way_clear n p → way_clear n (parent p).
Proof.
  intros Hp q content Hq. apply Hp. etrans; [exact Hq|apply parent_prefix].
Qed.

Lemma way_clear_adds n n' p : adds_dirs n n' → way_clear n p → way_clear n' p.
Proof.
  intros Ha Hp q content Hq. destruct (Ha q) as [->|[_ ->]]; [by apply Hp|done].
Qed.

Lemma way_clear_back n n' p : adds_dirs n n' → way_clear n' p → way_clear n p.
Proof.
  intros Ha Hp q content Hq Hfile.
  apply (Hp q content Hq). by apply (adds_dirs_grows _ _ Ha).
Qed.

Lemma mkdir_noparents_ok n p :
  stat n (parent p) = Some IsDir → way_clear n p →
  ∃ n', mkdir_noparents true n p = inr n'.
Proof.
  intros Hpar Hclear. unfold mkdir_noparents.
  destruct (stat n p) as [x|] eqn:Hp.
  - rewrite (os_mkdir_exists _ _ _ Hp).
    destruct x as [content|]; [by destruct (Hclear p content)|].
    apply is_dir_stat in Hp. rewrite Hp. eauto.
  - destruct (os_mkdir_ok _ _ Hpar Hp) as [n' ->]. eauto.
Qed.

(** [Path.mkdir(parents=True, exist_ok=True)] succeeds when no regular file
    is in the way. *)
Lemma mkdir_parents_ok exist_ok p n :
  exist_ok = true → way_clear n p →
  ∃ n', mkdir_parents exist_ok p n = inr n'.
Proof.
  funelim (mkdir_parents exist_ok p n); intros -> Hclear.
  - apply os_mkdir_error in Heq as (q & content & Hq & Hfile).
    by destruct (Hclear q content).
  - apply os_mkdir_error in Heq as [[content|] Hp].
    + by destruct (Hclear p content).
    + apply is_dir_stat in Hp. rewrite Hp. eauto.
  - by apply os_mkdir_error in Heq.
  - eauto.
  - discriminate.
  - match goal with
    | IH : true = true → _ → ∃ n', mkdir_parents true _ n = inr n',
      Hrec : mkdir_parents true _ n = inl _ |- _ =>
        destruct IH as [n1 Hn1]; [done|by apply way_clear_parent|];
        rewrite Hn1 in Hrec; discriminate
    end.
  - match goal with
    | Hrec : mkdir_parents true _ n = inr n1 |- _ =>
        apply mkdir_parents_spec in Hrec as [Hpar Ha]
    end.
    apply mkdir_noparents_ok; [exact Hpar|by eapply way_clear_adds].
Qed.

(** [os.mkdir] reports a missing parent only when the parent is missing. *)
Lemma os_mkdir_enoent n p :
  os_mkdir n p = inl ENOENT → stat n (parent p) = None.
Proof.
  revert n. induction p as [|c p IH]; intros n; [by simpl|].
  destruct n as [s|m]; [by simpl|].
  destruct p as [|d p].
  - simpl. by destruct (m !! c).
  - change (parent (c :: d :: p)) with (c :: parent (d :: p)).
    rewrite stat_below, os_mkdir_below.
    destruct (m !! c) as [n1|]; [|done].
    destruct (os_mkdir n1 (d :: p)) as [e|n2] eqn:Hrec; [|done].
    intros [= ->]. by apply IH.
Qed.

(** The errors of [Path.mkdir(parents=True, exist_ok=True)]: a regular file
    above [p], or at [p]. *)
Lemma mkdir_parents_errors exist_ok p n e :
  exist_ok = true → mkdir_parents exist_ok p n = inl e →
  e = ENOTDIR ∨ e = EEXIST.
Proof.
  funelim (mkdir_parents exist_ok p n); intros ->; try discriminate.
  - destruct (true && is_dir n p); intros [= <-]. by left.
  - destruct (true && is_dir n p); intros [= <-]. by right.
  - by apply os_mkdir_error in Heq.
  - intros [= <-].
    match goal with
    | IH : ∀ e, true = true → _ = inl e → _,
      Hrec : mkdir_parents true _ n = inl _ |- _ => by apply IH
    end.
  - match goal with
    | Hrec : mkdir_parents true _ n = inr n1 |- _ =>
        apply mkdir_parents_spec in Hrec as [Hpar _]
    end.
    unfold mkdir_noparents.
    destruct (os_mkdir n1 (c :: p')) as [e1|n2] eqn:Hm; [|discriminate].
    destruct e1.
    + apply os_mkdir_enoent in Hm. congruence.
    + destruct (true && is_dir n1 (c :: p')); intros [= <-]. by left.
    + destruct (true && is_dir n1 (c :: p')); intros [= <-]. by right.
    + by apply os_mkdir_error in Hm.
Qed.

(** What [Path.mkdir(parents=True)] changes lies on the way to [p]. *)
Lemma mkdir_parents_elsewhere exist_ok p n n' :
  mkdir_parents exist_ok p n = inr n' →
  ∀ q, ¬ q `prefix_of` p → stat n' q = stat n q.
Proof.
  funelim (mkdir_parents exist_ok p n); try discriminate.
  1-3: destruct (exist_ok && is_dir n p); [|discriminate];
       by intros [= <-].
  - intros [= <-] q Hq. destruct (os_mkdir_stat _ _ _ Heq) as [_ ->].
    case_decide; [subst; by destruct Hq|done].
  - unfold mkdir_noparents.
    match goal with
    | IH : ∀ n', _ = inr n' → ∀ q, _ → stat n' q = stat n q,
      Hrec : mkdir_parents true _ n = inr n1 |- _ =>
        pose proof (IH n1 Hrec) as Hfirst
    end.
    assert (∀ q, ¬ q `prefix_of` c :: p' → stat n1 q = stat n q) as Hn1.
    { intros q Hq. apply Hfirst. intros Hpre. apply Hq.
      etrans; [exact Hpre|apply parent_prefix]. }
    destruct (os_mkdir n1 (c :: p')) as [e|n2] eqn:Hm.
    + destruct e; try discriminate;
        (destruct (exist_ok && is_dir n1 (c :: p')); [|discriminate]);
        intros [= <-]; exact Hn1.
    + intros [= <-] q Hq. destruct (os_mkdir_stat _ _ _ Hm) as [_ ->].
      case_decide; [subst; by destruct Hq|by apply Hn1].
Qed.

End FSMore.

(** ** More on the directory scaffolder *)

Section ScaffolderMore.
Import FS FSFacts FSMore.

Lemma way_clear_of_dir n p : stat n p = Some IsDir → way_clear n p.
Proof.
  intros Hp q content Hq.
  apply is_dir_stat in Hp. apply (is_dir_prefix _ _ _ Hq) in Hp.
  apply is_dir_stat in Hp. congruence.
Qed.

Lemma create_dirs_ok l w :
  (∀ d, d ∈ l → way_clear (fs w) (Path d)) →
  ∃ w', Py.for_each l create_directory w = (Ret tt, w').
Proof.
  revert w. induction l as [|d l IH]; intros w Hl; [by exists w|].
  rewrite for_each_cons, create_directory_run.
  destruct (mkdir_parents_ok true (Path d) (fs w)) as [n1 Hn1];
    [done|apply Hl; by left|].
  rewrite Hn1. apply IH. intros d' Hd'. simpl.
  apply mkdir_parents_spec in Hn1 as [_ Ha].
  eapply way_clear_adds; [exact Ha|]. apply Hl. by right.
Qed.

Lemma create_dirs_clear l w w' :
  Py.for_each l create_directory w = (Ret tt, w') →
  ∀ d, d ∈ l → way_clear (fs w) (Path d).
Proof.
  intros (Ha & _ & Hok)%create_dirs_run d Hd.
  destruct (Hok eq_refl) as [Hdirs _].
  eapply way_clear_back; [exact Ha|]. by apply way_clear_of_dir, Hdirs.
Qed.

Lemma create_dirs_errors l w e w' :
  Py.for_each l create_directory w = (Raise e, w') →
  e = OSError ENOTDIR ∨ e = OSError EEXIST.
Proof.
  revert w. induction l as [|d l IH]; intros w; [discriminate|].
  rewrite for_each_cons, create_directory_run.
  destruct (mkdir_parents true (Path d) (fs w)) as [e1|n1] eqn:Hm.
  - intros [= <- <-].
    destruct (mkdir_parents_errors _ _ _ _ eq_refl Hm) as [->| ->]; eauto.
  - apply IH.
Qed.

Lemma create_dirs_elsewhere l w r w' :
  Py.for_each l create_directory w = (r, w') →
  ∀ q, (∀ d, d ∈ l → ¬ q `prefix_of` Path d) →
       stat (fs w') q = stat (fs w) q.
Proof.
  revert w. induction l as [|d l IH]; intros w.
  - by intros [= <- <-].
  - rewrite for_each_cons, create_directory_run.
    destruct (mkdir_parents true (Path d) (fs w)) as [e1|n1] eqn:Hm.
    + by intros [= <- <-].
    + intros Hrest q Hq. rewrite (IH _ Hrest q); simpl.
      * apply (mkdir_parents_elsewhere _ _ _ _ Hm). apply Hq. by left.
      * intros d' Hd'. apply Hq. by right.
Qed.

(** The lines printed are the reports for the directories handled before
    the loop ended. *)
Lemma create_dirs_reports l w r w' :
  Py.for_each l create_directory w = (r, w') →
  ∃ k, (k ≤ length l)%nat ∧
       stdout w' = (stdout w ++ (dir_report <$> take k l))%list ∧
       (∀ d, d ∈ take k l → stat (fs w') (Path d) = Some IsDir) ∧
       (r = Ret tt ↔ k = length l).
Proof.
  revert w. induction l as [|d l IH]; intros w.
  - intros [= <- <-]. exists 0%nat. simpl. rewrite app_nil_r.
    repeat split; try done. intros d Hd. inversion Hd.
  - rewrite for_each_cons, create_directory_run.
    destruct (mkdir_parents true (Path d) (fs w)) as [e1|n1] eqn:Hm.
    + intros [= <- <-]. exists 0%nat. simpl. rewrite app_nil_r.
      repeat split; try done; try lia. intros d' Hd'. inversion Hd'.
    + intros Hrest. pose proof Hrest as (Ha & _)%create_dirs_run.
      destruct (IH _ Hrest) as (k & Hk & Hout & Hdirs & Hiff).
      apply mkdir_parents_spec in Hm as [Hd _]. simpl in *.
      exists (S k). split; [lia|]. split; [|split].
      * rewrite Hout, <- app_assoc. reflexivity.
      * intros d' [->|Hd']%elem_of_cons; [|by apply Hdirs].
        by apply (adds_dirs_grows _ _ Ha).
      * rewrite Hiff. lia.
Qed.

End ScaffolderMore.





(** X3.  Whether it returns or raises, [create_directories] changes the disk
    only by making directories that were missing, each an entry of
    [DOCS_DIRS] or above one; every other path resolves as before, and no
    subprocess is started. *)
Theorem create_directories_footprint w r w' :
  create_directories w = (r, w') →
  spawned w' = spawned w ∧
  ∀ q, FS.stat (fs w') q = FS.stat (fs w) q ∨
       (FS.stat (fs w) q = None ∧ FS.stat (fs w') q = Some IsDir ∧
        ∃ d, d ∈ DOCS_DIRS ∧ q `prefix_of` Path d).
Proof.
  intros Hrun. pose proof Hrun as (Ha & Hsp & _)%create_dirs_run.
  split; [exact Hsp|]. intros q.
  destruct (decide (Exists (λ d, q `prefix_of` Path d) DOCS_DIRS))
    as [Hex|Hno].
  - apply Exists_exists in Hex. destruct (Ha q) as [Heq|[Hnone Hdir]]; eauto.
  - left. apply (create_dirs_elsewhere _ _ _ _ Hrun).
    intros d Hd Hq. apply Hno, Exists_exists. eauto.
Qed.

Lemma create_directories_footprint_witness :
  let w := world_of disk_core_is_file in
  FS.stat (fs (create_directories w).2) (Path "docs/core")
  = Some (IsFile "core notes") ∧
  FS.stat (fs (create_directories w).2) (Path "site") = None.
Proof.
  intros w.
  destruct (create_directories_footprint w (create_directories w).1
              (create_directories w).2) as [_ Hq]; [by vm_compute|].
  split.
  - destruct (Hq (Path "docs/core")) as [->|[Hnone _]]; by vm_compute.
  - destruct (Hq (Path "site")) as [->|(_ & _ & d & Hd & Hpre)];
      [by vm_compute|].
    exfalso. revert d Hd Hpre.
    apply (proj1 (Forall_forall
                    (λ d, ¬ Path "site" `prefix_of` Path d) DOCS_DIRS)).
    apply (bool_decide_unpack _). by vm_compute.
Defined.

(** X4.  The lines [create_directories] prints are the reports for the
    entries of [DOCS_DIRS] it handled, in order: all nine when it returns,
    fewer when it raises, and each reported entry is a directory then. *)
Theorem create_directories_reports w r w' :
  create_directories w = (r, w') →
  ∃ k, (k ≤ length DOCS_DIRS)%nat ∧
       stdout w' = (stdout w ++ (dir_report <$> take k DOCS_DIRS))%list ∧
       (∀ d, d ∈ take k DOCS_DIRS → FS.is_dir (fs w') (Path d) = true) ∧
       (r = Ret tt ↔ k = length DOCS_DIRS).
Proof.
  intros (k & Hk & Hout & Hdirs & Hiff)%create_dirs_reports.
  exists k. repeat split; try done; try apply Hiff.
  intros d Hd. by apply FSFacts.is_dir_stat, Hdirs.
Qed.

Lemma create_directories_reports_witness :
  let w := world_of disk_core_is_file in
  ∃ k, (k ≤ length DOCS_DIRS)%nat ∧
       stdout (create_directories w).2
       = (stdout w ++ (dir_report <$> take k DOCS_DIRS))%list ∧
       ((create_directories w).1 = Ret tt ↔ k = length DOCS_DIRS).
Proof.
  intros w.
  destruct (create_directories_reports w (create_directories w).1
              (create_directories w).2) as (k & Hk & Hout & _ & Hiff);
    [by vm_compute|].
  exists k. split; [exact Hk|]. split; [exact Hout|exact Hiff].
Defined.

(** ** More on the placeholder generator *)

Section PlaceholdersMore.
Import FS FSFacts FSMore.

Lemma filter_ext_in {A} (P1 P2 : A → Prop)
    `{!∀ x, Decision (P1 x), !∀ x, Decision (P2 x)} (l : list A) :
  (∀ x, x ∈ l → P1 x ↔ P2 x) → filter P1 l = filter P2 l.
Proof.
  induction l as [|x l IH]; intros Hl; [reflexivity|].
  rewrite !filter_cons, IH by (intros y Hy; apply Hl; by right).
  destruct (decide (P1 x)) as [H1|H1], (decide (P2 x)) as [H2|H2];
    try reflexivity; exfalso; apply (Hl x) in H1 || apply (Hl x) in H2;
    done || by left.
Qed.

(** When every file is there, the loop does nothing. *)
Lemma placeholders_present l w :
  (∀ f, f ∈ l → exists_ (fs w) (Path f) = true) →
  Py.for_each l create_placeholder w = (Ret tt, w).
Proof.
  induction l as [|f l IH]; intros Hl; [reflexivity|].
  rewrite for_each_cons, create_placeholder_run, Hl by (by left).
  apply IH. intros f' Hf'. apply Hl. by right.
Qed.

(** What the loop changes: it writes the document of a file of the list
    where nothing was. *)
Lemma placeholders_footprint l w r w' :
  Py.for_each l create_placeholder w = (r, w') →
  ∀ q, stat (fs w') q = stat (fs w) q ∨
       (stat (fs w) q = None ∧
        ∃ f, f ∈ l ∧ q = Path f ∧
             stat (fs w') q = Some (IsFile (placeholder_of f))).
Proof.
  revert w. induction l as [|f l IH]; intros w.
  - intros [= <- <-] q. by left.
  - rewrite for_each_cons.
    destruct (create_placeholder f w) as [r1 w1] eqn:Hstep.
    assert (∀ q, stat (fs w1) q = stat (fs w) q ∨
                 (stat (fs w) q = None ∧ q = Path f ∧
                  stat (fs w1) q = Some (IsFile (placeholder_of f))))
      as Hhead.
    { rewrite create_placeholder_run in Hstep. intros q.
      destruct (exists_ (fs w) (Path f)) eqn:Hex.
      - injection Hstep as <- <-. by left.
      - apply exists_stat in Hex.
        destruct (os_write _ _ _) as [e|n1] eqn:Hw;
          injection Hstep as <- <-; [by left|].
        simpl. rewrite (os_write_stat _ _ _ _ Hw).
        case_decide; [subst; right; eauto|by left]. }
    clear Hstep. destruct r1 as [[]|e].
    + intros Hrest q.
      destruct (Hhead q) as [Hq|(Hnone & Heq0 & Hq)],
               (IH _ Hrest q) as [Hq'|(Hnone' & f' & Hf' & Heq & Hq')].
      * left. congruence.
      * right. split; [congruence|]. exists f'. split; [by right|done].
      * right. split; [done|]. exists f. split; [by left|].
        split; [done|congruence].
      * congruence.
    + intros [= <- <-] q.
      destruct (Hhead q) as [Hq|(Hnone & -> & Hq)]; [by left|].
      right. split; [done|]. exists f. split; [by left|done].
Qed.



(** What the loop prints: a report for each file that was missing. *)
Lemma placeholders_reports l w w' :
  NoDup (Path <$> l) →
  Py.for_each l create_placeholder w = (Ret tt, w') →
  stdout w' =
  (stdout w ++
   (file_report <$> filter (λ f, exists_ (fs w) (Path f) = false) l))%list.
Proof.
  revert w. induction l as [|f l IH]; intros w Hnd.
  - intros [= <-]. simpl. by rewrite app_nil_r.
  - rewrite fmap_cons in Hnd. apply NoDup_cons in Hnd as [Hfl Hnd].
    rewrite for_each_cons.
    destruct (create_placeholder f w) as [[[]|e] w1] eqn:Hstep;
      [|discriminate].
    intros Hrest. rewrite (IH _ Hnd Hrest).
    pose proof Hstep as (_ & _ & _ & Hother & _)%create_placeholder_step.
    rewrite (filter_ext_in (λ f0, exists_ (fs w1) (Path f0) = false)
                           (λ f0, exists_ (fs w) (Path f0) = false) l).
    2:{ intros f' Hf'. unfold exists_. rewrite Hother; [done|].
        intros Heq. apply Hfl. rewrite <- Heq.
        by apply list_elem_of_fmap_2. }
    rewrite create_placeholder_run in Hstep.
    destruct (exists_ (fs w) (Path f)) eqn:Hex.
    + injection Hstep as <-. rewrite filter_cons_False by congruence. done.
    + destruct (os_write _ _ _) as [e|n1]; [discriminate|].
      injection Hstep as <-. rewrite filter_cons_True by done.
      simpl. by rewrite <- app_assoc.
Qed.

End PlaceholdersMore.

Section WriteErrors.
Import FS FSFacts FSMore.

(** Why a write fails at a path that does not resolve. *)
Lemma os_write_error n p content e :
  os_write n p content = inl e → stat n p = None →
  e = ENOENT ∨ e = ENOTDIR.
Proof.
  revert n. induction p as [|c p IH]; intros n; [by simpl|].
  destruct n as [s|m]; [simpl; intros [= <-]; eauto|].
  destruct p as [|d p].
  - simpl. by destruct (m !! c) as [[s|m1]|].
  - rewrite os_write_below, stat_below.
    destruct (m !! c) as [n1|]; [|intros [= <-]; eauto].
    destruct (os_write n1 (d :: p) content) as [e1|n2] eqn:Hrec; [|done].
    intros [= <-]. by apply IH.
Qed.

Lemma placeholders_errors l w e w' :
  Py.for_each l create_placeholder w = (Raise e, w') →
  e = OSError ENOENT ∨ e = OSError ENOTDIR.
Proof.
  revert w. induction l as [|f l IH]; intros w; [discriminate|].
  rewrite for_each_cons, create_placeholder_run.
  destruct (exists_ (fs w) (Path f)) eqn:Hex; [apply IH|].
  apply exists_stat in Hex.
  destruct (os_write _ _ _) as [e1|n1] eqn:Hw; [|apply IH].
  intros [= <- <-].
  destruct (os_write_error _ _ _ _ Hw Hex) as [->| ->]; eauto.
Qed.

End WriteErrors.





(** X7.  Whether it returns or raises, [create_placeholder_files] changes
    the disk only by writing the template document of an expected file
    where nothing was: it overwrites nothing, makes no directory, touches no
    other path, and starts no subprocess. *)
Theorem create_placeholder_files_footprint w r w' :
  create_placeholder_files w = (r, w') →
  spawned w' = spawned w ∧
  ∀ q, FS.stat (fs w') q = FS.stat (fs w) q ∨
       (FS.stat (fs w) q = None ∧
        ∃ f, f ∈ expected_files ∧ q = Path f ∧
             FS.stat (fs w') q = Some (IsFile (placeholder_of f))).
Proof.
  rewrite create_placeholder_files_run.
  set (w1 := if FS.exists_ (fs w) arch_diagram_path then w else _).
  assert (fs w1 = fs w) as Hfs by (subst w1; by destruct (FS.exists_ _ _)).
  assert (spawned w1 = spawned w) as Hsp
    by (subst w1; by destruct (FS.exists_ _ _)).
  clearbody w1. intros Hrun. split.
  - apply placeholders_run in Hrun as (_ & -> & _). exact Hsp.
  - intros q. rewrite <- Hfs. by apply (placeholders_footprint _ _ _ _ Hrun).
Qed.

Lemma create_placeholder_files_footprint_witness :
  let w := (create_directories (world_of disk_edited)).2 in
  FS.stat (fs (create_placeholder_files w).2) (Path "docs/index.md")
  = Some (IsFile "# Welcome") ∧
  FS.stat (fs (create_placeholder_files w).2) (Path "mkdocs.yml")
  = Some (IsFile "site_name: AgentBridge").
Proof.
  intros w.
  destruct (create_placeholder_files_footprint w
              (create_placeholder_files w).1 (create_placeholder_files w).2)
    as [_ Hq]; [by vm_compute|].
  split.
  - destruct (Hq (Path "docs/index.md")) as [->|[Hnone _]]; by vm_compute.
  - destruct (Hq (Path "mkdocs.yml")) as [->|[Hnone _]]; by vm_compute.
Defined.

(** X8.  When [create_placeholder_files] returns, what it printed is the
    note about the architecture diagram, if that is missing, followed by one
    report for each expected file that was missing, in the order of
    [expected_files]; files that were there are not reported. *)
Theorem create_placeholder_files_reports w w' :
  create_placeholder_files w = (Ret tt, w') →
  stdout w' =
  (stdout w
   ++ (if FS.exists_ (fs w) arch_diagram_path then [] else [arch_note])
   ++ (file_report <$>
       filter (λ f, FS.exists_ (fs w) (Path f) = false) expected_files))%list.
Proof.
  rewrite create_placeholder_files_run.
  intros Hrun. rewrite (placeholders_reports _ _ _ expected_files_NoDup Hrun).
  destruct (FS.exists_ (fs w) arch_diagram_path); simpl; [done|].
  by rewrite <- app_assoc.
Qed.

Lemma create_placeholder_files_reports_witness :
  let w := (create_directories (world_of disk_edited)).2 in
  length (stdout (create_placeholder_files w).2)
  = (length (stdout w) + 1 + 21)%nat.
Proof.
  intros w.
  rewrite (create_placeholder_files_reports w (create_placeholder_files w).2)
    by (by vm_compute).
  by vm_compute.
Defined.

(** X9.  [create_placeholder_files] is idempotent: run again after it has
    returned, it returns, leaves the disk as it is and prints nothing but
    the note about the architecture diagram, if that is missing. *)
Theorem create_placeholder_files_again w w1 :
  create_placeholder_files w = (Ret tt, w1) →
  create_placeholder_files w1 =
  (Ret tt,
   mkWorld (fs w1)
     (stdout w1
      ++ if FS.exists_ (fs w1) arch_diagram_path then [] else [arch_note])
     (spawned w1)).
Proof.
  rewrite create_placeholder_files_run.
  intros (_ & _ & _ & _ & Hdone)%placeholders_run.
  rewrite create_placeholder_files_run.
  rewrite placeholders_present.
  - destruct (FS.exists_ (fs w1) arch_diagram_path); [|done].
    rewrite app_nil_r. by destruct w1.
  - intros f Hf.
    assert (FS.exists_ (fs w1) (Path f) = true) as Hex by by apply Hdone.
    by destruct (FS.exists_ (fs w1) arch_diagram_path).
Qed.

Lemma create_placeholder_files_again_witness :
  let w := (create_directories (world_of disk_fresh)).2 in
  let w1 := (create_placeholder_files w).2 in
  fs (create_placeholder_files w1).2 = fs w1 ∧
  stdout (create_placeholder_files w1).2 = (stdout w1 ++ [arch_note])%list.
Proof.
  intros w w1.
  rewrite (create_placeholder_files_again w w1) by (by vm_compute).
  split; by vm_compute.
Defined.

(** ** More on the subprocess steps and the menu *)

Section DispatcherMore.
Context (E : Env).

Lemma subprocess_run_ok cmd w n' :
  run_process E (length (spawned w)) cmd (fs w) = (Exited 0, n') →
  Py.subprocess_run E cmd w =
  (Ret tt, mkWorld n' (stdout w) (spawned w ++ [cmd])).
Proof. intros Hrun. unfold Py.subprocess_run. by rewrite Hrun. Qed.

Lemma subprocess_run_not_started cmd w e n' :
  run_process E (length (spawned w)) cmd (fs w) = (NotStarted e, n') →
  Py.subprocess_run E cmd w = (Raise (OSError e), w).
Proof. intros Hrun. unfold Py.subprocess_run. by rewrite Hrun. Qed.

(** The exceptions of [subprocess.run]. *)
Lemma subprocess_run_raises cmd w e :
  (Py.subprocess_run E cmd w).1 = Raise e →
  (∃ rc, e = CalledProcessError cmd rc ∧ rc ≠ 0%Z) ∨
  e = KeyboardInterrupt ∨ ∃ err, e = OSError err.
Proof.
  unfold Py.subprocess_run.
  destruct (run_process E _ cmd (fs w)) as [[rc| |err] n'].
  - destruct rc; simpl; intros [= <-]; left; eauto.
  - simpl. intros [= <-]. eauto.
  - simpl. intros [= <-]. eauto.
Qed.

(** *** A step that goes well *)

Lemma install_dependencies_done w n' :
  run_process E (length (spawned w)) (pip_install E) (fs w) = (Exited 0, n') →
  install_dependencies E w =
  (Ret tt, mkWorld n' (stdout w ++ [install_done])
                   (spawned w ++ [pip_install E])).
Proof.
  intros Hrun. unfold install_dependencies, Py.try_except.
  rewrite bind_run, (subprocess_run_ok _ _ _ Hrun). reflexivity.
Qed.

Lemma build_documentation_done w n' :
  run_process E (length (spawned w)) mkdocs_build (fs w) = (Exited 0, n') →
  build_documentation E w =
  (Ret tt, mkWorld n' (stdout w ++ [build_done]) (spawned w ++ [mkdocs_build])).
Proof.
  intros Hrun. unfold build_documentation, Py.try_except.
  rewrite bind_run, (subprocess_run_ok _ _ _ Hrun). reflexivity.
Qed.

Lemma serve_documentation_done w n' :
  run_process E (length (spawned w)) mkdocs_serve (fs w) = (Exited 0, n') →
  serve_documentation E w =
  (Ret tt, mkWorld n' (stdout w ++ serve_banner) (spawned w ++ [mkdocs_serve])).
Proof.
  intros Hrun. unfold serve_documentation, Py.try_except.
  rewrite !print_then.
  rewrite (subprocess_run_ok _ _ n') by done.
  unfold serve_banner. simpl. by rewrite <- !app_assoc.
Qed.

(** *** An interrupt outside the serve step *)

Lemma install_dependencies_interrupted w n' :
  run_process E (length (spawned w)) (pip_install E) (fs w)
  = (Interrupted, n') →
  install_dependencies E w =
  (Raise KeyboardInterrupt,
   mkWorld n' (stdout w) (spawned w ++ [pip_install E])).
Proof.
  intros Hrun. unfold install_dependencies, Py.try_except.
  rewrite bind_run, (subprocess_run_interrupted _ _ _ _ Hrun). reflexivity.
Qed.

Lemma build_documentation_interrupted w n' :
  run_process E (length (spawned w)) mkdocs_build (fs w) = (Interrupted, n') →
  build_documentation E w =
  (Raise KeyboardInterrupt,
   mkWorld n' (stdout w) (spawned w ++ [mkdocs_build])).
Proof.
  intros Hrun. unfold build_documentation, Py.try_except.
  rewrite bind_run, (subprocess_run_interrupted _ _ _ _ Hrun). reflexivity.
Qed.

(** *** A subprocess that cannot be started *)

Lemma install_dependencies_not_started w e n' :
  run_process E (length (spawned w)) (pip_install E) (fs w)
  = (NotStarted e, n') →
  install_dependencies E w = (Raise (OSError e), w).
Proof.
  intros Hrun. unfold install_dependencies, Py.try_except.
  rewrite bind_run, (subprocess_run_not_started _ _ _ _ Hrun). reflexivity.
Qed.

Lemma build_documentation_not_started w e n' :
  run_process E (length (spawned w)) mkdocs_build (fs w)
  = (NotStarted e, n') →
  build_documentation E w = (Raise (OSError e), w).
Proof.
  intros Hrun. unfold build_documentation, Py.try_except.
  rewrite bind_run, (subprocess_run_not_started _ _ _ _ Hrun). reflexivity.
Qed.

Lemma serve_documentation_not_started w e n' :
  run_process E (length (spawned w)) mkdocs_serve (fs w)
  = (NotStarted e, n') →
  serve_documentation E w =
  (Raise (OSError e),
   mkWorld (fs w) (stdout w ++ serve_banner) (spawned w)).
Proof.
  intros Hrun. unfold serve_documentation, Py.try_except.
  rewrite !print_then.
  rewrite (subprocess_run_not_started _ _ e n') by done.
  unfold serve_banner. simpl. by rewrite <- !app_assoc.
Qed.

End DispatcherMore.

(** X10.  Any line other than [1], [2] and [3] is an invalid choice: the
    script says so and shows the menu again, with the rest of the input;
    it starts no subprocess and leaves the disk alone.  The line is
    compared as it is, so a choice with a blank around it is invalid too. *)
Theorem invalid_choice_prompts_again E choice rest w :
  choice ≠ "1" → choice ≠ "2" → choice ≠ "3" →
  menu_loop E (choice :: rest) w =
  menu_loop E rest
    (mkWorld (fs w)
       (stdout w ++ menu_chunks
        ++ [ ("Invalid choice. Please try again." ++ nl)%string ])
       (spawned w)).
Proof.
  intros H1%String.eqb_neq H2%String.eqb_neq H3%String.eqb_neq.
  rewrite menu_loop_cons, H1, H2, H3, print_then.
  unfold prompted. cbn [fs stdout spawned]. by rewrite <- app_assoc.
Qed.

Lemma invalid_choice_prompts_again_witness :
  let E := env_of all_well in
  let w := (main_setup E (world_of disk_fresh)).2 in
  menu_loop E ["1 "; "3"] w =
  menu_loop E ["3"]
    (mkWorld (fs w)
       (stdout w ++ menu_chunks
        ++ [ ("Invalid choice. Please try again." ++ nl)%string ])
       (spawned w)).
Proof.
  intros E w. by apply (invalid_choice_prompts_again E "1 " ["3"] w).
Defined.

(** X11.  At the menu, on the line [1], when [mkdocs build] exits with 0:
    the script prints that the documentation was built and shows the menu
    again, with the rest of the input. *)
Theorem build_success_returns_to_menu E rest w n' :
  run_process E (length (spawned w)) mkdocs_build (fs w) = (Exited 0, n') →
  menu_loop E ("1" :: rest) w =
  menu_loop E rest
    (mkWorld n'
       (stdout w ++ menu_chunks
        ++ [ ("Documentation built successfully. You can find the output in the 'site' directory."
              ++ nl)%string ])
       (spawned w ++ [mkdocs_build])).
Proof.
  intros Hbuild. rewrite menu_loop_cons.
  change (String.eqb "1" "1") with true. cbv iota.
  rewrite bind_run.
  rewrite (build_documentation_done E (prompted w) n') by exact Hbuild.
  unfold prompted, build_done. cbn [fs stdout spawned].
  by rewrite <- app_assoc.
Qed.

Lemma build_success_returns_to_menu_witness :
  let E := env_of all_well in
  (main E ["1"; "3"] (world_of disk_fresh)).1 = Ret tt ∧
  spawned (main E ["1"; "3"] (world_of disk_fresh)).2
  = [pip_install E; mkdocs_build].
Proof.
  intros E. set (w := (main_setup E (world_of disk_fresh)).2).
  assert (main E ["1"; "3"] (world_of disk_fresh) = menu_loop E ["1"; "3"] w)
    as -> by (by vm_compute).
  rewrite (build_success_returns_to_menu E ["3"] w (fs w)) by (by vm_compute).
  split; by vm_compute.
Defined.

(** X12.  At the menu, on the line [2], when [mkdocs serve] exits with 0
    by itself: the script prints nothing after the two serving lines and
    shows the menu again, with the rest of the input. *)
Theorem serve_end_returns_to_menu E rest w n' :
  run_process E (length (spawned w)) mkdocs_serve (fs w) = (Exited 0, n') →
  menu_loop E ("2" :: rest) w =
  menu_loop E rest
    (mkWorld n'
       (stdout w ++ menu_chunks
        ++ [ ("Serving documentation at http://127.0.0.1:8000/" ++ nl)%string;
             ("Press Ctrl+C to stop the server." ++ nl)%string ])
       (spawned w ++ [mkdocs_serve])).
Proof.
  intros Hserve. rewrite menu_loop_cons.
  change (String.eqb "2" "1") with false.
  change (String.eqb "2" "2") with true. cbv iota.
  rewrite bind_run.
  rewrite (serve_documentation_done E (prompted w) n') by exact Hserve.
  unfold prompted, serve_banner. cbn [fs stdout spawned].
  by rewrite <- app_assoc.
Qed.

Lemma serve_end_returns_to_menu_witness :
  let E := env_of all_well in
  (main E ["2"; "3"] (world_of disk_fresh)).1 = Ret tt ∧
  spawned (main E ["2"; "3"] (world_of disk_fresh)).2
  = [pip_install E; mkdocs_serve].
Proof.
  intros E. set (w := (main_setup E (world_of disk_fresh)).2).
  assert (main E ["2"; "3"] (world_of disk_fresh) = menu_loop E ["2"; "3"] w)
    as -> by (by vm_compute).
  rewrite (serve_end_returns_to_menu E ["3"] w (fs w)) by (by vm_compute).
  split; by vm_compute.
Defined.

(** X13.  An interrupt is caught around the serve step only.  When it
    arrives while the script waits for [mkdocs build], the script prints
    nothing more and ends with [KeyboardInterrupt]: the rest of the input is
    not read and the exit status is 130, not 0. *)
Theorem build_interrupt_ends_script E rest w n' :
  run_process E (length (spawned w)) mkdocs_build (fs w) = (Interrupted, n') →
  menu_loop E ("1" :: rest) w =
    (Raise KeyboardInterrupt,
     mkWorld n' (stdout w ++ menu_chunks) (spawned w ++ [mkdocs_build])) ∧
  ∀ w0, main_setup E w0 = (Ret tt, w) →
        Py.exit_status (main E ("1" :: rest) w0).1 = 130%Z.
Proof.
  intros Hbuild.
  assert (menu_loop E ("1" :: rest) w =
          (Raise KeyboardInterrupt,
           mkWorld n' (stdout w ++ menu_chunks) (spawned w ++ [mkdocs_build])))
    as Hloop.
  { rewrite menu_loop_cons.
    change (String.eqb "1" "1") with true. cbv iota.
    rewrite bind_run.
    by rewrite (build_documentation_interrupted E (prompted w) n'). }
  split; [exact Hloop|].
  intros w0 Hsetup. by rewrite main_run, Hsetup, Hloop.
Qed.

Lemma build_interrupt_ends_script_witness :
  let E := env_of (but_at 1 Interrupted) in
  Py.exit_status (main E ["1"; "3"] (world_of disk_fresh)).1 = 130%Z.
Proof.
  intros E. set (w := (main_setup E (world_of disk_fresh)).2).
  apply (proj2 (build_interrupt_ends_script E ["3"] w (fs w)
                  ltac:(by vm_compute))).
  by vm_compute.
Defined.

(** X14.  An interrupt while the script waits for [pip] is not caught
    either: [main] ends with [KeyboardInterrupt] before any placeholder is
    written, and the menu is never shown. *)
Theorem install_interrupt_ends_script E lines w0 w n' :
  (require_config ;; create_directories) w0 = (Ret tt, w) →
  run_process E (length (spawned w)) (pip_install E) (fs w)
  = (Interrupted, n') →
  main E lines w0 =
  (Raise KeyboardInterrupt,
   mkWorld n' (stdout w) (spawned w ++ [pip_install E])).
Proof.
  rewrite bind_run. intros Hpre Hpip.
  rewrite main_run, main_setup_run.
  destruct (require_config w0) as [[[]|e] w1]; [|discriminate].
  rewrite Hpre.
  by rewrite (install_dependencies_interrupted E w n').
Qed.

Lemma install_interrupt_ends_script_witness :
  let E := env_of (but_at 0 Interrupted) in
  (main E ["3"] (world_of disk_fresh)).1 = Raise KeyboardInterrupt ∧
  FS.exists_ (fs (main E ["3"] (world_of disk_fresh)).2) (Path "docs/index.md")
  = false.
Proof.
  intros E.
  set (w := ((require_config ;; create_directories) (world_of disk_fresh)).2).
  rewrite (install_interrupt_ends_script E ["3"] (world_of disk_fresh) w (fs w))
    by (by vm_compute).
  split; by vm_compute.
Defined.

(** X15.  When a subprocess cannot be started ([mkdocs] or the interpreter
    is not found), the [OSError] is not caught: the install, build and serve
    steps raise it without printing an error line of their own, and nothing
    is recorded as started. *)
Theorem not_started_is_not_caught E w e n' :
  (run_process E (length (spawned w)) (pip_install E) (fs w)
   = (NotStarted e, n') →
   install_dependencies E w = (Raise (OSError e), w)) ∧
  (run_process E (length (spawned w)) mkdocs_build (fs w)
   = (NotStarted e, n') →
   ∀ rest, menu_loop E ("1" :: rest) w = (Raise (OSError e), prompted w)) ∧
  (run_process E (length (spawned w)) mkdocs_serve (fs w)
   = (NotStarted e, n') →
   ∀ rest, menu_loop E ("2" :: rest) w =
           (Raise (OSError e),
            mkWorld (fs w) (stdout w ++ menu_chunks ++ serve_banner)
                    (spawned w))).
Proof.
  split; [|split].
  - apply install_dependencies_not_started.
  - intros Hbuild rest. rewrite menu_loop_cons.
    change (String.eqb "1" "1") with true. cbv iota.
    rewrite bind_run.
    by rewrite (build_documentation_not_started E (prompted w) e n').
  - intros Hserve rest. rewrite menu_loop_cons.
    change (String.eqb "2" "1") with false.
    change (String.eqb "2" "2") with true. cbv iota.
    rewrite bind_run.
    rewrite (serve_documentation_not_started E (prompted w) e n') by done.
    unfold prompted. cbn [fs stdout spawned]. by rewrite <- app_assoc.
Qed.

Lemma not_started_is_not_caught_witness :
  let E := env_of (but_at 1 (NotStarted ENOENT)) in
  let w := (main_setup E (world_of disk_fresh)).2 in
  menu_loop E ["1"; "3"] w = (Raise (OSError ENOENT), prompted w) ∧
  Py.exit_status (menu_loop E ["1"; "3"] w).1 = 1%Z.
Proof.
  intros E w.
  pose proof (proj1 (proj2 (not_started_is_not_caught E w ENOENT (fs w)))
                ltac:(by vm_compute) ["3"]) as Hloop.
  split; [exact Hloop|]. by rewrite Hloop.
Defined.

(** ** What can leave [main] *)

Section Tame.
Context (E : Env).

Lemma tame_ret {A} (a : A) : tame (mret a : M A).
Proof. intros w e. discriminate. Qed.

Lemma tame_write s : tame (Py.write s).
Proof. intros w e. discriminate. Qed.

Lemma tame_print s : tame (Py.print s).
Proof. apply tame_write. Qed.

Lemma tame_raise {A} e : may_escape e → tame (Py.raise e : M A).
Proof. intros He w e'. by intros [= <-]. Qed.

Lemma tame_bind {A B} (m : M A) (f : A → M B) :
  tame m → (∀ a, tame (f a)) → tame (m ≫= f).
Proof.
  intros Hm Hf w e. rewrite bind_run. specialize (Hm w).
  destruct (m w) as [[a|e1] w1]; simpl in *; [apply Hf|].
  intros [= <-]. by apply Hm.
Qed.

Lemma tame_exit_1 s : tame (Py.print s ;; Py.sys_exit 1 : M unit).
Proof. apply tame_bind; [apply tame_print|]. intros _. by apply tame_raise. Qed.

Lemma tame_require_config : tame require_config.
Proof.
  apply tame_bind; [apply tame_print|]. intros _ w e.
  rewrite bind_run. unfold Py.path_exists.
  destruct (FS.exists_ (fs w) (Path "mkdocs.yml"));
    [discriminate|apply tame_exit_1].
Qed.

Lemma tame_create_directories : tame create_directories.
Proof.
  intros w e. destruct (create_directories w) as [r w'] eqn:Hrun.
  simpl. intros ->.
  by destruct (create_dirs_errors _ _ _ _ Hrun) as [->| ->].
Qed.

Lemma tame_create_placeholder_files : tame create_placeholder_files.
Proof.
  intros w e. destruct (create_placeholder_files w) as [r w'] eqn:Hrun.
  simpl. intros ->. rewrite create_placeholder_files_run in Hrun.
  by destruct (placeholders_errors _ _ _ _ Hrun) as [->| ->].
Qed.

(** A step that starts [cmd] and has a handler that prints and exits with
    code 1 on [CalledProcessError]: no such error escapes. *)
Lemma tame_install : tame (install_dependencies E).
Proof.
  intros w e. unfold install_dependencies, Py.try_except.
  rewrite bind_run.
  destruct (Py.subprocess_run E (pip_install E) w) as [[[]|e1] w1] eqn:Hrun;
    [discriminate|].
  pose proof (subprocess_run_raises E (pip_install E) w e1) as Hcases.
  rewrite Hrun in Hcases.
  destruct (Hcases eq_refl) as [(rc & -> & _)|[->|[err ->]]].
  - apply tame_exit_1.
  - by intros [= <-].
  - by intros [= <-].
Qed.

Lemma tame_build : tame (build_documentation E).
Proof.
  intros w e. unfold build_documentation, Py.try_except.
  rewrite bind_run.
  destruct (Py.subprocess_run E mkdocs_build w) as [[[]|e1] w1] eqn:Hrun;
    [discriminate|].
  pose proof (subprocess_run_raises E mkdocs_build w e1) as Hcases.
  rewrite Hrun in Hcases.
  destruct (Hcases eq_refl) as [(rc & -> & _)|[->|[err ->]]].
  - apply tame_exit_1.
  - by intros [= <-].
  - by intros [= <-].
Qed.

Lemma tame_serve : tame (serve_documentation E).
Proof.
  intros w e. unfold serve_documentation, Py.try_except.
  rewrite !print_then.
  set (w0 := mkWorld _ _ _).
  destruct (Py.subprocess_run E mkdocs_serve w0) as [[[]|e1] w1] eqn:Hrun;
    [discriminate|].
  pose proof (subprocess_run_raises E mkdocs_serve w0 e1) as Hcases.
  rewrite Hrun in Hcases.
  destruct (Hcases eq_refl) as [(rc & -> & _)|[->|[err ->]]].
  - apply tame_exit_1.
  - discriminate.
  - by intros [= <-].
Qed.

Lemma tame_menu_loop lines : tame (menu_loop E lines).
Proof.
  induction lines as [|choice rest IH]; intros w e.
  - rewrite menu_loop_nil. by intros [= <-].
  - rewrite menu_loop_cons. revert e. generalize (prompted w).
    match goal with
    | |- ∀ w1 e1, (?m w1).1 = Raise e1 → _ => change (tame m)
    end.
    repeat case_match.
    + apply tame_bind; [apply tame_build|done].
    + apply tame_bind; [apply tame_serve|done].
    + apply tame_print.
    + apply tame_bind; [apply tame_print|done].
Qed.

Lemma tame_main_setup : tame (main_setup E).
Proof.
  apply tame_bind; [apply tame_require_config|intros _].
  apply tame_bind; [apply tame_create_directories|intros _].
  apply tame_bind; [apply tame_install|intros _].
  apply tame_create_placeholder_files.
Qed.

(** The loop is left normally only on the line [3]. *)
Lemma menu_loop_returns lines w :
  (menu_loop E lines w).1 = Ret tt → "3" ∈ lines.
Proof.
  revert w. induction lines as [|choice rest IH]; intros w.
  - by rewrite menu_loop_nil.
  - rewrite menu_loop_cons.
    destruct (String.eqb choice "1");
      [|destruct (String.eqb choice "2");
        [|destruct (String.eqb choice "3") eqn:H3]].
    + rewrite bind_run.
      destruct (build_documentation E (prompted w)) as [[[]|e] w1];
        [|discriminate].
      intros Hrest%IH. by right.
    + rewrite bind_run.
      destruct (serve_documentation E (prompted w)) as [[[]|e] w1];
        [|discriminate].
      intros Hrest%IH. by right.
    + intros _. apply String.eqb_eq in H3 as ->. by left.
    + rewrite print_then. intros Hrest%IH. by right.
Qed.

End Tame.

(** X16.  How [main] can end.  It returns only when the line [3] was among
    the input; the only [sys.exit] code is 1; a [CalledProcessError] never
    escapes it.  So the exit status is 0, 1 or 130, and it is 0 only when
    [3] was chosen. *)
Theorem main_outcomes E lines w :
  match (main E lines w).1 with
  | Ret _ => "3" ∈ lines
  | Raise (SystemExit code) => code = 1%Z
  | Raise (CalledProcessError _ _) => False
  | Raise _ => True
  end ∧
  (Py.exit_status (main E lines w).1 = 0%Z ∨
   Py.exit_status (main E lines w).1 = 1%Z ∨
   Py.exit_status (main E lines w).1 = 130%Z) ∧
  (Py.exit_status (main E lines w).1 = 0%Z → "3" ∈ lines).
Proof.
  assert (tame (main E lines)) as Htame.
  { apply tame_bind; [apply tame_main_setup|].
    intros _. apply tame_menu_loop. }
  assert ((main E lines w).1 = Ret tt → "3" ∈ lines) as Hret.
  { rewrite main_run.
    destruct (main_setup E w) as [[[]|e] w1]; [|discriminate].
    apply menu_loop_returns. }
  specialize (Htame w).
  destruct (main E lines w).1 as [[]|e]; simpl.
  - split; [by apply Hret|]. split; [by left|]. intros _. by apply Hret.
  - specialize (Htame e eq_refl).
    destruct e; simpl in *; try done; subst; split; try done;
      split; try (by right; left); try (by right; right); done.
Qed.

Lemma main_outcomes_witness :
  In "3" ["x"; "3"; "1"] ∧
  (main (env_of all_well) ["x"; "3"; "1"] (world_of disk_fresh)).1 = Ret tt.
Proof.
  split; [|by vm_compute].
  apply list_elem_of_In.
  apply (proj2 (proj2 (main_outcomes (env_of all_well) ["x"; "3"; "1"]
                         (world_of disk_fresh)))).
  by vm_compute.
Defined.

(** ** The subprocesses [main] starts *)

Section Starts.
Context (E : Env).

Lemma starts_quiet {A} (m : M A) k :
  (∀ w, spawned (m w).2 = spawned w) → starts E k m.
Proof.
  intros Hm w. exists []. rewrite app_nil_r. split; [apply Hm|].
  split; [simpl; lia|constructor].
Qed.

Lemma starts_bind {A B} (m : M A) (f : A → M B) k1 k2 :
  starts E k1 m → (∀ a, starts E k2 (f a)) → starts E (k1 + k2) (m ≫= f).
Proof.
  intros Hm Hf w. rewrite bind_run.
  destruct (Hm w) as (c1 & Hs1 & Hl1 & Hk1).
  destruct (m w) as [[a|e] w1]; simpl in *.
  - destruct (Hf a w1) as (c2 & Hs2 & Hl2 & Hk2).
    exists (c1 ++ c2)%list. rewrite Hs2, Hs1, <- app_assoc.
    split; [done|]. split; [rewrite length_app; lia|by apply Forall_app].
  - exists c1. split; [done|]. split; [lia|done].
Qed.

Lemma starts_try {A} (body : M A) handler k1 k2 :
  starts E k1 body → (∀ e h, handler e = Some h → starts E k2 h) →
  starts E (k1 + k2) (Py.try_except body handler).
Proof.
  intros Hb Hh w. unfold Py.try_except.
  destruct (Hb w) as (c1 & Hs1 & Hl1 & Hk1).
  destruct (body w) as [[a|e] w1]; simpl in *.
  - exists c1. split; [done|]. split; [lia|done].
  - destruct (handler e) as [h|] eqn:He.
    + destruct (Hh e h He w1) as (c2 & Hs2 & Hl2 & Hk2).
      exists (c1 ++ c2)%list. rewrite Hs2, Hs1, <- app_assoc.
      split; [done|]. split; [rewrite length_app; lia|by apply Forall_app].
    + exists c1. split; [done|]. split; [lia|done].
Qed.

Lemma starts_subprocess_run cmd :
  known_command E cmd → starts E 1 (Py.subprocess_run E cmd).
Proof.
  intros Hcmd w.
  destruct (subprocess_run_spawned E cmd w) as [_ [Hsp|[Hw _]]].
  - exists [cmd]. split; [done|]. split; [done|]. by constructor.
  - exists []. rewrite Hw, app_nil_r. split; [done|].
    split; [simpl; lia|constructor].
Qed.

Lemma starts_print s k : starts E k (Py.print s).
Proof. by apply starts_quiet. Qed.

Lemma starts_exit_1 s : starts E 0 (Py.print s ;; Py.sys_exit 1 : M unit).
Proof. by apply starts_quiet. Qed.

Lemma starts_install : starts E 1 (install_dependencies E).
Proof.
  apply (starts_try _ _ 1 0).
  - apply (starts_bind _ _ 1 0); [|intros _; apply starts_print].
    apply starts_subprocess_run. by left.
  - intros [] h [= <-]. apply starts_exit_1.
Qed.

Lemma starts_build : starts E 1 (build_documentation E).
Proof.
  apply (starts_try _ _ 1 0).
  - apply (starts_bind _ _ 1 0); [|intros _; apply starts_print].
    apply starts_subprocess_run. right. by left.
  - intros [] h [= <-]. apply starts_exit_1.
Qed.

Lemma starts_serve : starts E 1 (serve_documentation E).
Proof.
  apply (starts_try _ _ 1 0).
  - apply (starts_bind _ _ 0 1); [apply starts_print|intros _].
    apply (starts_bind _ _ 0 1); [apply starts_print|intros _].
    apply starts_subprocess_run. right. by right.
  - intros [] h [= <-]; [apply starts_exit_1|apply starts_print].
Qed.

Lemma starts_menu_loop lines : starts E (length lines) (menu_loop E lines).
Proof.
  induction lines as [|choice rest IH]; intros w.
  - rewrite menu_loop_nil. exists []. rewrite app_nil_r.
    split; [done|]. split; [simpl; lia|constructor].
  - rewrite menu_loop_cons.
    change (spawned w) with (spawned (prompted w)).
    generalize (prompted w).
    match goal with
    | |- ∀ w1, ∃ cmds, spawned (?m w1).2 = _ ∧ _ => change (starts E (1 + length rest) m)
    end.
    repeat case_match.
    + apply starts_bind; [apply starts_build|done].
    + apply starts_bind; [apply starts_serve|done].
    + apply starts_print.
    + apply (starts_bind _ _ 1); [apply starts_print|done].
Qed.

Lemma starts_main_setup : starts E 1 (main_setup E).
Proof.
  apply (starts_bind _ _ 0 1); [|intros _].
  { apply starts_quiet. intros w. rewrite require_config_run.
    by destruct (FS.exists_ _ _). }
  apply (starts_bind _ _ 0 1); [|intros _].
  { apply starts_quiet. intros w.
    destruct (create_directories w) as [r w'] eqn:Hrun.
    by apply create_dirs_run in Hrun as (_ & Hsp & _). }
  apply (starts_bind _ _ 1 0); [apply starts_install|intros _].
  apply starts_quiet. intros w. rewrite create_placeholder_files_run.
  set (w1 := if FS.exists_ (fs w) arch_diagram_path then w else _).
  assert (spawned w1 = spawned w) as <-
    by (subst w1; by destruct (FS.exists_ _ _)).
  destruct (Py.for_each _ _ w1) as [r w'] eqn:Hrun.
  by apply placeholders_run in Hrun as (_ & Hsp & _).
Qed.

End Starts.

(** X17.  Whatever the input and however it ends, [main] starts only the
    [pip] command, [mkdocs build] and [mkdocs serve], and at most one
    subprocess more than there are lines of input. *)
Theorem main_subprocesses E lines w :
  ∃ cmds,
    spawned (main E lines w).2 = (spawned w ++ cmds)%list ∧
    (length cmds ≤ 1 + length lines)%nat ∧
    Forall (λ cmd, cmd = pip_install E ∨ cmd = mkdocs_build
                   ∨ cmd = mkdocs_serve) cmds.
Proof.
  apply (starts_bind E _ _ 1 (length lines));
    [apply starts_main_setup|intros _; apply starts_menu_loop].
Qed.

(** ** [main] from start to menu *)

(** X18.  The set-up as a whole.  With [mkdocs.yml] there, no regular file
    in the way of [DOCS_DIRS], and a [pip] that exits with 0 and keeps what
    is on the disk, [main] reaches the menu: by then every entry of
    [DOCS_DIRS] is a directory, every expected file exists, and [pip] is the
    one subprocess that was started. *)
Theorem main_setup_reaches_menu E w :
  FS.exists_ (fs w) (Path "mkdocs.yml") = true →
  (∀ d, d ∈ DOCS_DIRS →
     ∀ q content, q `prefix_of` Path d →
                  FS.stat (fs w) q ≠ Some (IsFile content)) →
  (∀ n, ∃ n', run_process E (length (spawned w)) (pip_install E) n
              = (Exited 0, n') ∧ FS.grows n n') →
  ∃ w', main_setup E w = (Ret tt, w') ∧
        (∀ lines, main E lines w = menu_loop E lines w') ∧
        (∀ d, d ∈ DOCS_DIRS → FS.is_dir (fs w') (Path d) = true) ∧
        (∀ f, f ∈ expected_files → FS.exists_ (fs w') (Path f) = true) ∧
        spawned w' = (spawned w ++ [pip_install E])%list.
Proof.
  intros Hyml Hclear Hpip.
  set (w1 := mkWorld (fs w) (stdout w ++ [banner]) (spawned w)).
  destruct (create_dirs_ok DOCS_DIRS w1) as [w2 Hw2]; [exact Hclear|].
  change (create_directories w1 = (Ret tt, w2)) in Hw2.
  pose proof (scaffolded_parents _ _ Hw2) as Hpar.
  pose proof Hw2 as (_ & Hsp2 & Hok)%create_dirs_run.
  change (spawned w1) with (spawned w) in Hsp2.
  destruct (Hok eq_refl) as [Hdirs _].
  destruct (Hpip (fs w2)) as (n' & Hrun & Hgrows). rewrite <- Hsp2 in Hrun.
  pose proof (install_dependencies_done E w2 n' Hrun) as Hinst.
  set (w3 := mkWorld n' (stdout w2 ++ [install_done])
                     (spawned w2 ++ [pip_install E])) in Hinst.
  assert (∃ w', create_placeholder_files w3 = (Ret tt, w') ∧
                FS.grows n' (fs w') ∧ spawned w' = spawned w3 ∧
                ∀ f, f ∈ expected_files → FS.exists_ (fs w') (Path f) = true)
    as (w' & Hw' & Hg & Hsp & Hfiles).
  { rewrite create_placeholder_files_run.
    set (w3' := if FS.exists_ (fs w3) arch_diagram_path then w3 else _).
    assert (fs w3' = n') as Hfs
      by (subst w3'; by destruct (FS.exists_ (fs w3) arch_diagram_path)).
    assert (spawned w3' = spawned w3) as Hsp3
      by (subst w3'; by destruct (FS.exists_ (fs w3) arch_diagram_path)).
    clearbody w3'.
    destruct (placeholders_ok expected_files w3') as [w' Hw'].
    { intros f Hf. rewrite Hfs. by apply Hgrows, Hpar. }
    exists w'. split; [exact Hw'|].
    apply placeholders_run in Hw' as (Hg & Hsp & _ & _ & Hdone).
    rewrite Hfs in Hg. rewrite Hsp3 in Hsp. eauto. }
  assert (main_setup E w = (Ret tt, w')) as Hsetup.
  { rewrite main_setup_run, require_config_run, Hyml.
    change (mkWorld (fs w) (stdout w ++ [banner]) (spawned w)) with w1.
    by rewrite Hw2, Hinst. }
  exists w'. split; [exact Hsetup|]. split; [|split; [|split]].
  - intros lines. by rewrite main_run, Hsetup.
  - intros d Hd. by apply FSFacts.is_dir_stat, Hg, Hgrows, Hdirs.
  - exact Hfiles.
  - rewrite Hsp. simpl. by rewrite Hsp2.
Qed.

Lemma main_setup_reaches_menu_witness :
  ∃ w', main_setup (env_of all_well) (world_of disk_edited) = (Ret tt, w') ∧
        FS.exists_ (fs w') (Path "docs/core/type-system.md") = true.
Proof.
  destruct (main_setup_reaches_menu (env_of all_well) (world_of disk_edited))
    as (w' & Hsetup & _ & _ & Hfiles & _).
  - by vm_compute.
  - apply (create_dirs_clear DOCS_DIRS (world_of disk_edited)
             (create_directories (world_of disk_edited)).2).
    by vm_compute.
  - intros n. exists n. split; [reflexivity|apply FSFacts.grows_refl].
  - exists w'. split; [exact Hsetup|].
    apply Hfiles. apply (bool_decide_unpack _). by vm_compute.
Defined.

(** X19.  The set-up fails fast.  When [pip] exits with a return code other
    than 0, [main] ends right after the error line: the disk is as [pip]
    left it, so no placeholder was written by the script, the menu is not
    shown and no input is read. *)
Theorem install_failure_stops_main E lines w0 w rc n' :
  (require_config ;; create_directories) w0 = (Ret tt, w) →
  run_process E (length (spawned w)) (pip_install E) (fs w) = (Exited rc, n') →
  rc ≠ 0%Z →
  main E lines w0 =
  (Raise (SystemExit 1),
   mkWorld n'
     (stdout w ++
      [ (("Error installing dependencies: "
          ++ str_CalledProcessError E (pip_install E) rc) ++ nl)%string ])
     (spawned w ++ [pip_install E])).
Proof. apply main_install_failed. Qed.

Lemma install_failure_stops_main_witness :
  let E := env_of (but_at 0 (Exited 1)) in
  FS.exists_ (fs (main E ["1"] (world_of disk_fresh)).2) (Path "docs/index.md")
  = false ∧
  FS.is_dir (fs (main E ["1"] (world_of disk_fresh)).2) (Path "docs") = true.
Proof.
  intros E.
  set (w := ((require_config ;; create_directories) (world_of disk_fresh)).2).
  rewrite (install_failure_stops_main E ["1"] (world_of disk_fresh) w 1 (fs w))
    by (by vm_compute).
  split; by vm_compute.
Defined.

(** ** Titles *)

Section Titles.

Lemma case_keeps_hyphen_out (c : ascii) :
  c ≠ "-"%char → PyStr.to_upper c ≠ "-"%char ∧ PyStr.to_lower c ≠ "-"%char.
Proof.
  destruct c as [[] [] [] [] [] [] [] []]; intros Hc; split;
    vm_compute; congruence.
Qed.

Lemma contains_hyphen_cons c s :
  PyStr.contains "-" (String c s)
  = Ascii.eqb "-" c || PyStr.contains "-" s.
Proof.
  rewrite contains_unfold.
  change (PyStr.startswith (String c s) "-") with (Ascii.eqb "-" c && true).
  by rewrite andb_true_r.
Qed.

Lemma title_from_no_hyphen prev s :
  PyStr.contains "-" s = false →
  PyStr.contains "-" (PyStr.title_from prev s) = false.
Proof.
  revert prev. induction s as [|c s IH]; intros prev; [done|].
  change (PyStr.title_from prev (String c s))
    with (String (if prev then PyStr.to_lower c else PyStr.to_upper c)
                 (PyStr.title_from (PyStr.is_cased c) s)).
  rewrite !contains_hyphen_cons.
  intros [Hc Hs]%orb_false_iff. rewrite (IH _ Hs), orb_false_r.
  apply Ascii.eqb_neq. apply Ascii.eqb_neq in Hc.
  assert (c ≠ "-"%char) as Hc' by congruence.
  destruct (case_keeps_hyphen_out c Hc') as [Hu Hl].
  destruct prev; congruence.
Qed.

Lemma replace_no_hyphen s :
  PyStr.contains "-" (PyStr.replace "-" " " s) = false.
Proof.
  induction s as [|c s IH]; [done|].
  change (PyStr.replace "-" " " (String c s))
    with (String (if Ascii.eqb c "-" then " "%char else c)
                 (PyStr.replace "-" " " s)).
  rewrite contains_hyphen_cons, IH, orb_false_r.
  destruct (Ascii.eqb c "-") eqn:Hc; [done|].
  apply Ascii.eqb_neq. apply Ascii.eqb_neq in Hc. congruence.
Qed.

End Titles.

(** X20.  The heading and the section label of a placeholder never hold a
    hyphen, whatever the path: every hyphen of the file name and of the
    directory name has become a blank. *)
Theorem placeholder_labels_have_no_hyphen (p : path) :
  PyStr.contains "-" (placeholder_title p) = false ∧
  PyStr.contains "-" (placeholder_parent p) = false.
Proof.
  split; apply title_from_no_hyphen, replace_no_hyphen.
Qed.
